(** * A betting mini-game: engine and message renderer

    Shallow embedding of [game_logic.py], [exceptions.py], [models.py] and
    the parts of [message_utils.py] that render results and errors.

    - Python values that can travel through [Any]-typed slots (bets, bet
      parameters, the winning result) are the scalars [None], [bool], [int]
      and [str].
    - A Python [dict] is an insertion-ordered association list; a real
      [dict] never holds a key twice, which is the predicate [dict_wf].
    - The engine mutates [self.state] in place and raises exceptions; a
      call is a function from the state before to the state after together
      with either the raised exception or the returned value, so that what
      was written before a [raise] stays written.
    - [random.randint] draws from an explicit random word [rnd].
    - CPython converts between [int] and decimal text up to 4300 digits
      and raises [ValueError] beyond: [py_format] is the conversion an
      f-string makes, [int_of_str] the one [int] makes.
    - A string is a sequence of bytes; [isdigit] is Python's [str.isdigit]
      on text of ASCII characters ([ascii_only]), which is what the
      statements about numeric player ids assume. *)

From Stdlib Require Import String Ascii ZArith List Bool Lia DecimalString.
Import ListNotations.
Local Open Scope string_scope.
Local Open Scope Z_scope.

(** ** Python values *)

Inductive value : Type :=
| VNone
| VBool (b : bool)
| VInt (z : Z)
| VStr (s : string).

Definition Z_of_bool (b : bool) : Z := if b then 1 else 0.

(** Native [==]: numbers (booleans included) compare by value, strings
    character by character, [None] only equals [None]. *)
Definition py_eq (a b : value) : bool :=
  match a, b with
  | VNone, VNone => true
  | VBool x, VBool y => Bool.eqb x y
  | VBool x, VInt y => Z_of_bool x =? y
  | VInt x, VBool y => x =? Z_of_bool y
  | VInt x, VInt y => x =? y
  | VStr x, VStr y => String.eqb x y
  | _, _ => false
  end.

(** Truth value of an object in a condition. *)
Definition truthy (v : value) : bool :=
  match v with
  | VNone => false
  | VBool b => b
  | VInt z => negb (z =? 0)
  | VStr s => negb (String.eqb s EmptyString)
  end.

Definition str_of_Z (z : Z) : string := NilZero.string_of_int (Z.to_int z).

(** [str(v)], as an f-string formats it. *)
Definition py_str (v : value) : string :=
  match v with
  | VNone => "None"
  | VBool true => "True"
  | VBool false => "False"
  | VInt z => str_of_Z z
  | VStr s => s
  end.

(** [operator.index]: the integer an object stands for, if any. *)
Definition py_index (v : value) : option Z :=
  match v with
  | VInt z => Some z
  | VBool b => Some (Z_of_bool b)
  | _ => None
  end.

(** [sys.int_info.default_max_str_digits]: CPython converts an integer
    to decimal text, or decimal text to an integer, only up to this
    number of digits, and raises [ValueError] beyond it. *)
Definition int_max_str_digits : nat := 4300.

(** The integer has more than [int_max_str_digits] decimal digits. *)
Definition too_many_digits (z : Z) : bool :=
  10 ^ Z.of_nat int_max_str_digits <=? Z.abs z.
Arguments too_many_digits : simpl never.

(** ** Insertion-ordered dictionaries with string keys *)

Section Dict.
Context {V : Type}.

Definition dict : Type := list (string * V).

Fixpoint dict_get (k : string) (d : dict) : option V :=
  match d with
  | [] => None
  | (k', v) :: d' => if String.eqb k' k then Some v else dict_get k d'
  end.

(** [k in d] *)
Definition dict_mem (k : string) (d : dict) : bool :=
  match dict_get k d with Some _ => true | None => false end.

(** [d[k] = v]: overwrite in place, or append a new key at the end. *)
Fixpoint dict_set (k : string) (v : V) (d : dict) : dict :=
  match d with
  | [] => [(k, v)]
  | (k', v') :: d' =>
      if String.eqb k' k then (k', v) :: d' else (k', v') :: dict_set k v d'
  end.

Definition dict_keys (d : dict) : list string := map fst d.

(** [bool(d)]: a dictionary is true when it is not empty. *)
Definition dict_truthy (d : dict) : bool :=
  match d with [] => false | _ :: _ => true end.

Definition dict_wf (d : dict) : Prop := NoDup (dict_keys d).
End Dict.
Arguments dict V : clear implicits.

(** ** models.py *)

Definition MIN_PLAYERS : nat := 2.

Inductive GameStatus : Type := WAITING | PLAYING | ENDED.

Definition GameStatus_eqb (a b : GameStatus) : bool :=
  match a, b with
  | WAITING, WAITING | PLAYING, PLAYING | ENDED, ENDED => true
  | _, _ => false
  end.

(** [status.name] *)
Definition status_name (s : GameStatus) : string :=
  match s with
  | WAITING => "WAITING"
  | PLAYING => "PLAYING"
  | ENDED => "ENDED"
  end.

(** ** exceptions.py, and the interpreter's own exceptions the engine can
    run into *)

Inductive exn_class : Type :=
| GameError
| GameNotFoundError
| PlayerNotInGameError
| PlayerAlreadyJoinedError
| GameNotWaitingError
| GameNotPlayingError
| NotEnoughPlayersError
| NotPlayersTurnError
| InvalidActionError
| InvalidBetError
| NameError
| KeyError
| TypeError
| ValueError
| OtherException (class_name : string).

(** [isinstance(e, GameError)]: the base class and its nine subclasses. *)
Definition is_GameError (c : exn_class) : bool :=
  match c with
  | GameError | GameNotFoundError | PlayerNotInGameError
  | PlayerAlreadyJoinedError | GameNotWaitingError | GameNotPlayingError
  | NotEnoughPlayersError | NotPlayersTurnError | InvalidActionError
  | InvalidBetError => true
  | NameError | KeyError | TypeError | ValueError | OtherException _ => false
  end.


(** An exception object: its class and [str(e)], the message it carries. *)
Record exn : Type := Exn { exn_class_of : exn_class; exn_message : string }.

(** The text of an interpreter error is not modelled. *)
Definition value_error : exn := Exn ValueError EmptyString.

(** A replacement field [{v}] of an f-string: [str(v)], which for an
    integer of too many digits raises [ValueError]. *)
Definition py_format (v : value) : exn + string :=
  match v with
  | VInt z => if too_many_digits z then inl value_error else inr (str_of_Z z)
  | _ => inr (py_str v)
  end.

(** ** The engine's state *)

Record player : Type := mkPlayer { name : string; is_ai : bool }.

Record game_state : Type := mkState {
  status : GameStatus;
  creator_id : option string;
  players : dict player;
  bet_type : option string;
  bet_content : dict value;
  winning_result : value;
  player_bets : dict value
}.

Definition set_status (x : GameStatus) (s : game_state) : game_state :=
  mkState x (creator_id s) (players s) (bet_type s) (bet_content s)
          (winning_result s) (player_bets s).
Definition set_players (x : dict player) (s : game_state) : game_state :=
  mkState (status s) (creator_id s) x (bet_type s) (bet_content s)
          (winning_result s) (player_bets s).
Definition set_bet_type (x : option string) (s : game_state) : game_state :=
  mkState (status s) (creator_id s) (players s) x (bet_content s)
          (winning_result s) (player_bets s).
Definition set_bet_content (x : dict value) (s : game_state) : game_state :=
  mkState (status s) (creator_id s) (players s) (bet_type s) x
          (winning_result s) (player_bets s).
Definition set_winning_result (x : value) (s : game_state) : game_state :=
  mkState (status s) (creator_id s) (players s) (bet_type s) (bet_content s)
          x (player_bets s).
Definition set_player_bets (x : dict value) (s : game_state) : game_state :=
  mkState (status s) (creator_id s) (players s) (bet_type s) (bet_content s)
          (winning_result s) x.

(** ** Calls that mutate the state and may raise *)

Definition M (A : Type) : Type := game_state -> game_state * (exn + A).

Definition ret {A} (a : A) : M A := fun s => (s, inr a).
Definition raise {A} (e : exn) : M A := fun s => (s, inl e).
Definition bind {A B} (c : M A) (k : A -> M B) : M B :=
  fun s =>
    match c s with
    | (s', inl e) => (s', inl e)
    | (s', inr a) => k a s'
    end.
Definition get : M game_state := fun s => (s, inr s).
Definition modify (f : game_state -> game_state) : M unit :=
  fun s => (f s, inr tt).

Notation "x <- c1 ;; c2" := (bind c1 (fun x => c2))
  (at level 61, c1 at next level, right associativity).
Notation "c1 ;; c2" := (bind c1 (fun _ => c2))
  (at level 61, right associativity).

(** [d[k]] read: [KeyError(k)] when the key is missing. *)
Definition subscript {V} (k : string) (d : dict V) : M V :=
  match dict_get k d with
  | Some v => ret v
  | None => raise (Exn KeyError ("'" ++ k ++ "'"))
  end.

(** A replacement field of an f-string inside a method of the engine. *)
Definition formatted (v : value) : M string :=
  match py_format v with
  | inl e => raise e
  | inr text => ret text
  end.

(** [random.randint(a, b)] = [randrange(a, b + 1)]: both bounds must be
    integers ([TypeError] otherwise) and the range non-empty ([ValueError]
    otherwise); the result is [a] plus a draw below the width, taken from
    the random word.  The text of the two interpreter errors is not
    modelled. *)
Definition randint (rnd : Z) (a b : value) : M Z :=
  match py_index a, py_index b with
  | Some lo, Some hi =>
      if hi <? lo then raise (Exn ValueError EmptyString)
      else ret (lo + rnd mod (hi - lo + 1))
  | _, _ => raise (Exn TypeError EmptyString)
  end.

(** ** game_logic.py *)

Definition guess_number : string := "猜数字".
Definition guess_parity : string := "猜单双".
Definition odd_tag : string := "单".
Definition even_tag : string := "双".

Definition bet_type_is (t : string) (s : game_state) : bool :=
  match bet_type s with
  | Some t' => String.eqb t' t
  | None => false
  end.

(** [BettingGame.__init__] *)
Definition new_game (creator : option string) : game_state :=
  mkState WAITING creator [] None [] VNone [].

Definition add_player (player_id player_name : string) (ai : bool) : M unit :=
  st <- get ;;
  if negb (GameStatus_eqb (status st) WAITING) then
    raise (Exn GameNotWaitingError
               ("游戏正在进行(" ++ status_name (status st) ++ ")，无法加入。"))
  else if dict_mem player_id (players st) then
    ret tt
  else
    modify (fun s =>
      set_players (dict_set player_id (mkPlayer player_name ai) (players s)) s).

Definition _generate_winning_result (rnd : Z) : M unit :=
  st <- get ;;
  if bet_type_is guess_number st then
    lo <- subscript "min" (bet_content st) ;;
    hi <- subscript "max" (bet_content st) ;;
    r <- randint rnd lo hi ;;
    modify (set_winning_result (VInt r))
  else if bet_type_is guess_parity st then
    r <- randint rnd (VInt 0) (VInt 1) ;;
    modify (set_winning_result (VStr (if r =? 0 then odd_tag else even_tag)))
  else
    ret tt.

Record start_payload : Type := mkStart {
  start_success : bool;
  start_bet_type : string;
  start_bet_params : dict value;
  start_player_names : list string
}.

(** [[f(x) for x in xs]] where [f] may raise. *)
Fixpoint for_each {A B} (f : A -> M B) (xs : list A) : M (list B) :=
  match xs with
  | [] => ret []
  | x :: xs' => y <- f x ;; ys <- for_each f xs' ;; ret (y :: ys)
  end.

(** The name [InvalidActionError] is used by [start_game] and
    [process_bet] but is absent from the module's imports (lines 7-11):
    evaluating it raises [NameError] before any [InvalidActionError] object
    exists. *)
Definition unbound_InvalidActionError : exn :=
  Exn NameError "name 'InvalidActionError' is not defined".

Definition start_game (rnd : Z) (bt : string) (bet_params : dict value)
  : M start_payload :=
  st <- get ;;
  if negb (GameStatus_eqb (status st) WAITING) then
    raise unbound_InvalidActionError
  else if (length (players st) <? MIN_PLAYERS)%nat then
    raise (Exn NotEnoughPlayersError
               ("至少需要 " ++ str_of_Z (Z.of_nat MIN_PLAYERS) ++ " 人才能开始。"))
  else
    modify (set_bet_type (Some bt)) ;;
    modify (set_bet_content bet_params) ;;
    _generate_winning_result rnd ;;
    modify (set_status PLAYING) ;;
    st' <- get ;;
    names <- for_each (fun pid => p <- subscript pid (players st') ;; ret (name p))
                      (dict_keys (players st')) ;;
    ret (mkStart true bt bet_params names).

Definition _check_is_playing : M unit :=
  st <- get ;;
  if negb (GameStatus_eqb (status st) PLAYING) then
    raise (Exn GameNotPlayingError
               ("游戏需要为 PLAYING 状态 (当前: " ++ status_name (status st) ++ ")。"))
  else ret tt.

(** One entry of the results mapping: the dictionary
    [{"name": ..., "is_ai": ..., "is_win": ...}]. *)
Definition result_entry (n : string) (ai win : bool) : dict value :=
  [("name", VStr n); ("is_ai", VBool ai); ("is_win", VBool win)].

(** [is_win] as the loop body of [_end_game] computes it. *)
Definition is_win_of (st : game_state) (bet : value) : bool :=
  if bet_type_is guess_number st then py_eq bet (winning_result st)
  else if bet_type_is guess_parity st then py_eq bet (winning_result st)
  else false.

Fixpoint _end_game_loop (items : dict value) (results : dict (dict value))
  : M (dict (dict value)) :=
  match items with
  | [] => ret results
  | (player_id, bet) :: rest =>
      st <- get ;;
      let is_win := is_win_of st bet in
      p <- subscript player_id (players st) ;;
      _end_game_loop rest
        (dict_set player_id (result_entry (name p) (is_ai p) is_win) results)
  end.

Definition _end_game : M (dict (dict value)) :=
  st <- get ;;
  results <- _end_game_loop (player_bets st) [] ;;
  modify (set_status ENDED) ;;
  ret results.

(** The payload of [process_bet]; [bet_results = None] is the payload
    without a ["results"] key. *)
Record bet_payload : Type := mkBet {
  bet_success : bool;
  bet_action : string;
  bet_player_id : string;
  bet_player_name : string;
  bet_value : value;
  game_ended : bool;
  bet_results : option (dict (dict value))
}.

(** The log line after the write, [f"{name} bet: {bet}"], is evaluated
    whatever the log level: reading the name cannot fail here, formatting
    the bet can. *)
Definition process_bet (player_id : string) (bet : value) : M bet_payload :=
  _check_is_playing ;;
  st <- get ;;
  if negb (dict_mem player_id (players st)) then
    raise (Exn PlayerNotInGameError ("玩家 " ++ player_id ++ " 不在本局。"))
  else if dict_mem player_id (player_bets st) then
    raise unbound_InvalidActionError
  else
    modify (fun s => set_player_bets (dict_set player_id bet (player_bets s)) s) ;;
    st1 <- get ;;
    _logged <- subscript player_id (players st1) ;;
    _text <- formatted bet ;;
    if (length (player_bets st1) =? length (players st1))%nat then
      results <- _end_game ;;
      st2 <- get ;;
      p <- subscript player_id (players st2) ;;
      ret (mkBet true "bet" player_id (name p) bet true (Some results))
    else
      p <- subscript player_id (players st1) ;;
      ret (mkBet true "bet" player_id (name p) bet false None).

(** ** Sequences of calls *)

Inductive op : Type :=
| AddPlayer (player_id player_name : string) (ai : bool)
| StartGame (rnd : Z) (bt : string) (bet_params : dict value)
| ProcessBet (player_id : string) (bet : value).

Inductive returned : Type :=
| RetNone
| RetStart (p : start_payload)
| RetBet (p : bet_payload).

Definition call (o : op) : M returned :=
  match o with
  | AddPlayer pid pname ai => add_player pid pname ai ;; ret RetNone
  | StartGame rnd bt bp => p <- start_game rnd bt bp ;; ret (RetStart p)
  | ProcessBet pid bet => p <- process_bet pid bet ;; ret (RetBet p)
  end.

(** The state a call leaves behind, whether it returned or raised. *)
Definition after (o : op) (s : game_state) : game_state := fst (call o s).

Definition run (ops : list op) (s : game_state) : game_state :=
  fold_left (fun s o => after o s) ops s.

(** A game is what the constructor built and the three operations made of
    it since, the host having caught whatever they raised. *)
Definition reachable (s : game_state) : Prop :=
  exists creator ops, run ops (new_game creator) = s.

(** ** message_utils.py *)

(** The host's message segments: [Comp.Plain(text)] and [Comp.At(qq)]. *)
Inductive component : Type :=
| Plain (text : string)
| At (qq : Z).

Definition is_digit_char (c : ascii) : bool :=
  let n := nat_of_ascii c in ((48 <=? n) && (n <=? 57))%nat.

Fixpoint all_digits (s : string) : bool :=
  match s with
  | EmptyString => true
  | String c s' => is_digit_char c && all_digits s'
  end.

(** [str.isdigit()]: a non-empty string of digits.  Identifiers are byte
    strings here and the digits are the ASCII ones; digits of other scripts
    are outside this model. *)
Definition isdigit (s : string) : bool :=
  match s with
  | EmptyString => false
  | _ => all_digits s
  end.

Fixpoint int_of_digits (acc : Z) (s : string) : option Z :=
  match s with
  | EmptyString => Some acc
  | String c s' =>
      if is_digit_char c
      then int_of_digits (10 * acc + Z.of_nat (nat_of_ascii c - 48)) s'
      else None
  end.

(** [int(s)]; [None] stands for [ValueError]: no digits, or more than
    [int_max_str_digits] of them. *)
Definition int_of_str (s : string) : option Z :=
  match s with
  | EmptyString => None
  | _ =>
      if (int_max_str_digits <? String.length s)%nat then None
      else int_of_digits 0 s
  end.

Definition _get_player_mention (player_id : string) (player_name is_ai : value)
  : list component :=
  if negb (truthy is_ai) && isdigit player_id then
    match int_of_str player_id with
    | Some qq => [At qq; Plain ("(" ++ py_str player_name ++ ")")]
    | None => [Plain (py_str player_name)]
    end
  else if truthy is_ai then
    [Plain ("🤖 " ++ py_str player_name)]
  else
    [Plain (py_str player_name)].

(** [d.get(k, default)] *)
Definition dict_get_default {V} (k : string) (default : V) (d : dict V) : V :=
  match dict_get k d with
  | Some v => v
  | None => default
  end.

(** The loop variable the source calls [is_win] is bound to the value of
    an item of [results], which is the entry dictionary itself. *)
Definition build_bet_result_message (results : dict (dict value))
  (item : string * dict value) : list component :=
  let '(player_id, is_win) := item in
  let player_name :=
    dict_get_default "name" (VStr "未知玩家")
                     (dict_get_default player_id [] results) in
  let ai :=
    dict_get_default "is_ai" (VBool false)
                     (dict_get_default player_id [] results) in
  let mention_comps := _get_player_mention player_id player_name ai in
  let result_text := if dict_truthy is_win then "猜对" else "猜错" in
  [Plain "👉 "] ++ mention_comps ++ [Plain (" " ++ result_text ++ "！")].

Definition build_bet_result_messages (results : dict (dict value))
  : list (list component) :=
  map (build_bet_result_message results) results.


(** ** What the specification's wording says, for comparison *)

(** The trailing segment the specification describes for a results entry:
    chosen by the entry's ["is_win"] field. *)
Definition spec_trailing_segment (entry : dict value) : component :=
  if truthy (dict_get_default "is_win" (VBool false) entry)
  then Plain " 猜对！" else Plain " 猜错！".

(** ** Predicates used in the statements *)




(** The bet types [_generate_winning_result] and [_end_game] know. *)
Definition recognized (t : option string) : bool :=
  match t with
  | Some t' => String.eqb t' guess_number || String.eqb t' guess_parity
  | None => false
  end.

(** What [winning_result] is once a round of type [t] has started with
    parameters [bc]. *)
Definition winning_matches (t : string) (bc : dict value) (w : value) : Prop :=
  if String.eqb t guess_number then
    exists vlo vhi lo hi z,
      dict_get "min" bc = Some vlo /\ dict_get "max" bc = Some vhi /\
      py_index vlo = Some lo /\ py_index vhi = Some hi /\
      w = VInt z /\ lo <= z <= hi
  else if String.eqb t guess_parity then
    w = VStr odd_tag \/ w = VStr even_tag
  else
    w = VNone.

(** What holds of every game, see [reachable_Inv]. *)
Record Inv (s : game_state) : Prop := mkInv {
  inv_players_wf : dict_wf (players s);
  inv_bets_wf : dict_wf (player_bets s);
  inv_bets_sub : incl (dict_keys (player_bets s)) (dict_keys (players s));
  inv_waiting :
    status s = WAITING ->
    player_bets s = [] /\ winning_result s = VNone /\
    (bet_type s = None \/ bet_type s = Some guess_number);
  inv_started :
    status s <> WAITING ->
    exists t, bet_type s = Some t /\
              winning_matches t (bet_content s) (winning_result s)
}.

(** The item [_end_game] stores for one item of [player_bets]. *)
Definition entry_of (s : game_state) (item : string * value) : string * dict value :=
  let p := dict_get_default (fst item) (mkPlayer EmptyString false) (players s) in
  (fst item, result_entry (name p) (is_ai p) (is_win_of s (snd item))).

(** The state right after [process_bet] has recorded the bet. *)
Definition with_bet (player_id : string) (bet : value) (s : game_state) : game_state :=
  set_player_bets (dict_set player_id bet (player_bets s)) s.

(** The state [start_game] has written when it reaches the draw. *)
Definition with_bet_type (bt : string) (bet_params : dict value) (s : game_state)
  : game_state :=
  set_bet_content bet_params (set_bet_type (Some bt) s).



(** ** Sample games *)

(** A human with a numeric id and an AI player join. *)
Definition demo_join : list op :=
  [AddPlayer "111" "A" false; AddPlayer "ai-1" "B" true].

Definition demo_waiting : game_state := run demo_join (new_game None).

(** An odd-or-even round; the random word 0 draws ["单"]. *)
Definition demo_parity : game_state :=
  after (StartGame 0 guess_parity []) demo_waiting.

Definition demo_parity_one_bet : game_state :=
  after (ProcessBet "111" (VStr even_tag)) demo_parity.

(** A round started with a bet type the engine does not know. *)
Definition demo_unknown : game_state :=
  after (StartGame 0 "猜大小" []) demo_waiting.


(** ** Further predicates on the engine *)

From Stdlib Require Import Permutation.

(** The position of a status in the life of a round. *)
Definition status_rank (g : GameStatus) : nat :=
  match g with
  | WAITING => 0
  | PLAYING => 1
  | ENDED => 2
  end.

(** The bounds [random.randint] accepts from the parameters of a
    guess-the-number round: both keys present, both integers, and a range
    that is not empty. *)
Definition draw_bounds (bet_params : dict value) : option (Z * Z) :=
  match dict_get "min" bet_params, dict_get "max" bet_params with
  | Some a, Some b =>
      match py_index a, py_index b with
      | Some lo, Some hi => if hi <? lo then None else Some (lo, hi)
      | _, _ => None
      end
  | _, _ => None
  end.

(** The states and arguments on which [start_game] returns. *)
Definition can_start (bt : string) (bet_params : dict value) (s : game_state) : bool :=
  GameStatus_eqb (status s) WAITING
  && (MIN_PLAYERS <=? length (players s))%nat
  && (if String.eqb bt guess_number
      then match draw_bounds bet_params with Some _ => true | None => false end
      else true).


(** The log line of [process_bet] can format the bet. *)
Definition loggable (bet : value) : bool :=
  match py_format bet with inr _ => true | inl _ => false end.

(** The states and ids on which [process_bet] passes its checks and
    records the bet. *)
Definition can_bet (player_id : string) (s : game_state) : bool :=
  GameStatus_eqb (status s) PLAYING
  && dict_mem player_id (players s)
  && negb (dict_mem player_id (player_bets s)).


(** Joining players one after the other. *)
Definition join_all (joins : list (string * player)) : list op :=
  map (fun j => AddPlayer (fst j) (name (snd j)) (is_ai (snd j))) joins.

(** The sample odd-or-even round after its second and last bet. *)
Definition demo_ended : game_state :=
  after (ProcessBet "ai-1" (VStr odd_tag)) demo_parity_one_bet.

(** How many bets a game holds, by status. *)
Definition bet_count_ok (s : game_state) : Prop :=
  (status s <> WAITING -> (MIN_PLAYERS <= length (players s))%nat) /\
  (status s = PLAYING -> (length (player_bets s) <= length (players s))%nat) /\
  (status s = ENDED -> length (player_bets s) = length (players s)).

(** The fields that a round keeps once it has started. *)
Definition round_setup (s : game_state)
  : option string * dict player * option string * dict value * value :=
  (creator_id s, players s, bet_type s, bet_content s, winning_result s).

(** Every player of [joins] bets, in join order, what [choice] says. *)
Definition all_bet (choice : string -> value) (joins : dict player) : list op :=
  map (fun kv => ProcessBet (fst kv) (choice (fst kv))) joins.

(** ** message_utils.py, the remaining builders *)

(** The line feed written [\n] in the source. *)
Definition newline : string := String (ascii_of_nat 10) EmptyString.

(** [s.replace(c, '')] for a one-character [c]. *)
Fixpoint remove_char (c : ascii) (s : string) : string :=
  match s with
  | EmptyString => EmptyString
  | String a s' =>
      if Ascii.eqb a c then remove_char c s' else String a (remove_char c s')
  end.

(** [text.replace('(', '').replace(')', '')] *)
Definition strip_parens (s : string) : string :=
  remove_char ")" (remove_char "(" s).

(** [c in s] for a one-character [c]. *)
Fixpoint has_char (c : ascii) (s : string) : bool :=
  match s with
  | EmptyString => false
  | String a s' => Ascii.eqb a c || has_char c s'
  end.

(** [xs[-1]]; [None] stands for [IndexError]. *)
Fixpoint list_last {A} (xs : list A) : option A :=
  match xs with
  | [] => None
  | [x] => Some x
  | _ :: xs' => list_last xs'
  end.

(** [[f(x) for x in xs]] where [f] may raise and nothing is mutated: the
    first exception, from left to right, ends the evaluation. *)
Fixpoint map_exn {A B} (f : A -> exn + B) (xs : list A) : exn + list B :=
  match xs with
  | [] => inr []
  | x :: xs' =>
      match f x with
      | inl e => inl e
      | inr y =>
          match map_exn f xs' with
          | inl e => inl e
          | inr ys => inr (y :: ys)
          end
      end
  end.

Definition key_error (k : string) : exn := Exn KeyError ("'" ++ k ++ "'").

(** Evaluation in sequence of two steps that may raise. *)
Definition and_then {A B} (r : exn + A) (k : A -> exn + B) : exn + B :=
  match r with
  | inl e => inl e
  | inr a => k a
  end.

(** [d[k]] read outside the engine. *)
Definition item {V} (k : string) (d : dict V) : exn + V :=
  match dict_get k d with
  | Some v => inr v
  | None => inl (key_error k)
  end.

(** Every byte of the string is an ASCII character. *)
Fixpoint ascii_only (s : string) : bool :=
  match s with
  | EmptyString => true
  | String c s' => (nat_of_ascii c <? 128)%nat && ascii_only s'
  end.

(** [_get_player_mention] for a name of any kind: whichever branch is
    taken formats the name once (a [ValueError] raised inside the [try]
    is caught and raised again by the handler, which formats it too). *)
Definition mention_of (player_id : string) (player_name ai : value)
  : exn + list component :=
  and_then (py_format player_name)
           (fun _ => inr (_get_player_mention player_id player_name ai)).

(** One element of the list built by [format_player_list]: the two tags
    are computed first, then ["name"] is read and formatted. *)
Definition format_player_item (players : dict (dict value)) (pid : string)
  : exn + string :=
  match dict_get pid players with
  | Some pdata =>
      if dict_truthy pdata then
        let status :=
          if truthy (dict_get_default "is_eliminated" (VBool false) pdata)
          then " (淘汰)" else EmptyString in
        let ai_tag :=
          if truthy (dict_get_default "is_ai" (VBool false) pdata)
          then " [AI]" else EmptyString in
        and_then (item "name" pdata) (fun n =>
        and_then (py_format n) (fun text =>
        inr (text ++ ai_tag ++ status)))
      else inr ("[未知:" ++ pid ++ "]")
  | None => inr ("[未知:" ++ pid ++ "]")
  end.

Definition format_player_list (players : dict (dict value)) (turn_order : list string)
  : exn + string :=
  match turn_order with
  | [] => inr "无玩家"
  | _ =>
      match map_exn (format_player_item players) turn_order with
      | inl e => inl e
      | inr display_list => inr (String.concat ", " display_list)
      end
  end.

Definition build_start_game_message (bt : string) (bet_params : dict value)
  : exn + list component :=
  let components :=
    [Plain ("🎉 竞猜游戏开始！" ++ newline ++ "竞猜类型: " ++ bt)] in
  if String.eqb bt guess_number then
    and_then (item "min" bet_params) (fun lo =>
    and_then (py_format lo) (fun lo_text =>
    and_then (item "max" bet_params) (fun hi =>
    and_then (py_format hi) (fun hi_text =>
    inr (components ++
         [Plain ("请猜 " ++ lo_text ++ " 到 " ++ hi_text ++ " 之间的数字")])%list))))
  else if String.eqb bt guess_parity then
    inr (components ++ [Plain "请猜单或双"])%list
  else
    inr components.

(** The [game] argument of [build_game_status_message]: the four keys it
    reads, each absent ([None]) or present.  What is stored under
    ["status"] is a member of [GameStatus], as in the engine's state, or
    any other value. *)
Inductive status_value : Type :=
| StatusMember (g : GameStatus)
| StatusOther (v : value).

Record game_dict : Type := mkGameDict {
  g_status : option status_value;
  g_players : option (dict (dict value));
  g_bet_type : option value;
  g_bet_content : option (dict value)
}.

(** [game.get('status') == 'waiting']: a member of the enumeration is not
    equal to a string. *)
Definition status_is_waiting_text (game : game_dict) : bool :=
  match g_status game with
  | Some (StatusOther v) => py_eq v (VStr "waiting")
  | _ => false
  end.

(** [game.get('players', {})] and [game.get('bet_content', {})] *)
Definition game_players (game : game_dict) : dict (dict value) :=
  match g_players game with Some d => d | None => [] end.
Definition game_bet_content (game : game_dict) : dict value :=
  match g_bet_content game with Some d => d | None => [] end.

Definition status_player_line (pdata : dict value) : exn + string :=
  and_then (item "name" pdata) (fun n =>
  and_then (py_format n) (fun text =>
  inr ("- " ++ text ++
       (if truthy (dict_get_default "is_ai" (VBool false) pdata)
        then " [AI]" else EmptyString)))).

(** The lines of [build_game_status_message] about the bet type. *)
Definition status_type_lines (game : game_dict) : exn + string :=
  let bt := match g_bet_type game with Some v => v | None => VStr "未知" end in
  and_then (py_format bt) (fun bt_text =>
  let status_text := "竞猜类型: " ++ bt_text ++ newline in
  if py_eq bt (VStr guess_number) then
    and_then (py_format (dict_get_default "min" (VStr "未知") (game_bet_content game)))
      (fun lo_text =>
    and_then (py_format (dict_get_default "max" (VStr "未知") (game_bet_content game)))
      (fun hi_text =>
    inr (status_text ++ "数字范围: " ++ lo_text ++ " 到 " ++ hi_text ++ newline)))
  else if py_eq bt (VStr guess_parity) then
    inr (status_text ++ "猜单或双" ++ newline)
  else inr status_text).

Definition build_game_status_message (game : game_dict)
  (requesting_player_id : option string) : exn + list component :=
  let status_text :=
    "🎲 竞猜游戏状态" ++ newline ++ "状态: "
      ++ (if status_is_waiting_text game then "等待下注" else "游戏已结束")
      ++ newline in
  if status_is_waiting_text game then
    and_then (map_exn status_player_line (map snd (game_players game)))
      (fun player_list =>
    let status_text :=
      status_text ++ "玩家 (" ++ str_of_Z (Z.of_nat (length player_list))
        ++ "人):" ++ newline
        ++ (match player_list with
            | [] => "暂无"
            | _ => String.concat newline player_list
            end) in
    let status_text :=
      status_text ++ newline ++ newline ++ "➡️ 等待所有人下注" in
    inr [Plain status_text])
  else
    and_then (status_type_lines game) (fun type_lines =>
    let status_text := status_text ++ type_lines in
    let status_components := [Plain status_text] in
    let requesting_pdata :=
      match requesting_player_id with
      | Some pid =>
          if truthy (VStr pid) then
            match dict_get pid (game_players game) with
            | Some pdata => Some (pid, pdata)
            | None => None
            end
          else None
      | None => None
      end in
    match requesting_pdata with
    | Some (pid, pdata) =>
        if dict_truthy pdata then
          let player_name := dict_get_default "name" (VStr "未知玩家") pdata in
          let ai := dict_get_default "is_ai" (VBool false) pdata in
          and_then (mention_of pid player_name ai) (fun mention_comps =>
          inr (status_components ++ [Plain ("你已参与游戏" ++ newline)]
                 ++ mention_comps)%list)
        else inr status_components
    | None => inr status_components
    end).

(** The builders that read [comp.text].  [Comp.Plain] keeps its text;
    what [Comp.At(qq=...)] answers to [.text] is decided by the host's
    component class, which is not part of this repository. *)
Section ComponentText.
Variable At_text : Z -> exn + string.

Definition component_text (c : component) : exn + string :=
  match c with
  | Plain t => inr t
  | At qq => At_text qq
  end.

Definition build_join_message (player_id player_name : string)
  (player_count : Z) (ai : bool) : exn + list component :=
  let action_text := if ai then "添加 AI" else "加入" in
  let mention_comps := _get_player_mention player_id (VStr player_name) (VBool ai) in
  let prefix_comp := Plain (if ai then "🤖 " else "✅ ") in
  and_then (py_format (VInt player_count)) (fun count_text =>
  let suffix_comp :=
    Plain (" 已" ++ action_text ++ "！当前 " ++ count_text ++ " 人。") in
  match list_last mention_comps with
  | None => inl (Exn (OtherException "IndexError") "list index out of range")
  | Some c =>
      and_then (component_text c) (fun t =>
      inr ([prefix_comp] ++ removelast mention_comps
             ++ [Plain (strip_parens t)] ++ [suffix_comp])%list)
  end).

(** The loop of [build_game_end_message] over the zipped winners;
    [first] tells whether [i > 0] is still false. *)
Fixpoint game_end_loop (first : bool) (winners : list (string * string))
  (announcement : string) : exn + string :=
  match winners with
  | [] => inr announcement
  | (winner_id, winner_name) :: rest =>
      let ai := false in
      let announcement := if first then announcement else announcement ++ ", " in
      let mention_comps :=
        _get_player_mention winner_id (VStr winner_name) (VBool ai) in
      match map_exn component_text mention_comps with
      | inl e => inl e
      | inr texts =>
          game_end_loop false rest (announcement ++ String.concat EmptyString texts)
      end
  end.

Definition build_game_end_message (winner_ids winner_names : list string)
  : exn + list component :=
  match game_end_loop true (combine winner_ids winner_names)
                      "🎉 游戏结束！胜者是: " with
  | inl e => inl e
  | inr announcement => inr [Plain announcement]
  end.
End ComponentText.

(** ** The engine's state as the renderer reads it *)

(** The dictionary the engine stores for a player. *)
Definition player_dict (p : player) : dict value :=
  [("name", VStr (name p)); ("is_ai", VBool (is_ai p))].

Definition players_dict (d : dict player) : dict (dict value) :=
  map (fun kv => (fst kv, player_dict (snd kv))) d.

(** [self.state] under the keys [build_game_status_message] reads. *)
Definition state_dict (s : game_state) : game_dict :=
  mkGameDict (Some (StatusMember (status s)))
             (Some (players_dict (players s)))
             (Some (match bet_type s with Some t => VStr t | None => VNone end))
             (Some (bet_content s)).

(** The message [build_bet_result_messages] builds for one bet of a
    resolved round: the bet and the outcome play no part in it. *)
Definition announced (s : game_state) (item : string * value) : list component :=
  let p := dict_get_default (fst item) (mkPlayer EmptyString false) (players s) in
  ([Plain "👉 "] ++ _get_player_mention (fst item) (VStr (name p)) (VBool (is_ai p))
     ++ [Plain " 猜对！"])%list.

(** The text shown for a player of the engine in a player list. *)
Definition listed (kv : string * player) : string :=
  name (snd kv) ++ (if is_ai (snd kv) then " [AI]" else EmptyString).

(** What [build_game_status_message] appends for the player who asked,
    given the players of the engine. *)
Definition own_mention (s : game_state) (requesting_player_id : option string)
  : list component :=
  match requesting_player_id with
  | Some pid =>
      if String.eqb pid EmptyString then []
      else match dict_get pid (players s) with
           | Some p =>
               Plain ("你已参与游戏" ++ newline)
                 :: _get_player_mention pid (VStr (name p)) (VBool (is_ai p))
           | None => []
           end
  | None => []
  end.

(** Both bounds of a guess-the-number round are present and can be
    formatted. *)
Definition bounds_printable (bet_params : dict value) : bool :=
  match dict_get "min" bet_params, dict_get "max" bet_params with
  | Some lo, Some hi => loggable lo && loggable hi
  | _, _ => false
  end.

(** The bounds the status message shows can be formatted. *)
Definition range_printable (bet_content : dict value) : bool :=
  loggable (dict_get_default "min" (VStr "未知") bet_content)
  && loggable (dict_get_default "max" (VStr "未知") bet_content).

(** The entry has no ["name"], or one that cannot be formatted. *)
Definition name_unreadable (pdata : dict value) : bool :=
  match dict_get "name" pdata with
  | Some n => negb (loggable n)
  | None => true
  end.

(** * Facts about dictionaries *)

Section DictFacts.
Context {V : Type}.
Implicit Types (d : dict V) (k : string) (v : V).

Lemma dict_mem_In k d : dict_mem k d = true <-> In k (dict_keys d).
Proof.
  unfold dict_mem. induction d as [|[k' v'] d IH]; simpl.
  - split; [discriminate | tauto].
  - destruct (String.eqb_spec k' k) as [->|Hne].
    + split; auto.
    + rewrite IH. split; [auto | intros [H|H]; [congruence | exact H]].
Qed.

Lemma dict_mem_false k d : dict_mem k d = false <-> ~ In k (dict_keys d).
Proof.
  rewrite <- dict_mem_In. destruct (dict_mem k d); split; congruence.
Qed.

Lemma dict_get_Some_In k v d : dict_get k d = Some v -> In k (dict_keys d).
Proof.
  intros H. apply dict_mem_In. unfold dict_mem. now rewrite H.
Qed.

Lemma dict_get_In k d : In k (dict_keys d) -> exists v, dict_get k d = Some v.
Proof.
  intros H. apply dict_mem_In in H. unfold dict_mem in H.
  destruct (dict_get k d) as [v|]; [now exists v | discriminate].
Qed.

(** Assigning to a key the dictionary lacks appends the item. *)
Lemma dict_set_fresh k v d : dict_mem k d = false -> dict_set k v d = (d ++ [(k, v)])%list.
Proof.
  unfold dict_mem. induction d as [|[k' v'] d IH]; simpl; [reflexivity|].
  destruct (String.eqb k' k); [discriminate|]. intros H. now rewrite IH.
Qed.

Lemma dict_keys_app d1 d2 : dict_keys (d1 ++ d2)%list = (dict_keys d1 ++ dict_keys d2)%list.
Proof. apply map_app. Qed.

Lemma dict_get_app k d1 d2 :
  dict_get k (d1 ++ d2)%list =
  match dict_get k d1 with Some v => Some v | None => dict_get k d2 end.
Proof.
  induction d1 as [|[k' v'] d1 IH]; simpl; [reflexivity|].
  destruct (String.eqb k' k); [reflexivity | exact IH].
Qed.

Lemma dict_get_set_same k v d : dict_get k (dict_set k v d) = Some v.
Proof.
  induction d as [|[k' v'] d IH]; simpl.
  - now rewrite String.eqb_refl.
  - destruct (String.eqb k' k) eqn:E; simpl; rewrite E; [reflexivity | exact IH].
Qed.

Lemma dict_get_set_other k k' v d :
  k <> k' -> dict_get k' (dict_set k v d) = dict_get k' d.
Proof.
  intros Hne. induction d as [|[k0 v0] d IH]; simpl.
  - destruct (String.eqb_spec k k'); [contradiction | reflexivity].
  - destruct (String.eqb_spec k0 k) as [->|H0]; simpl.
    + destruct (String.eqb_spec k k'); [contradiction | reflexivity].
    + destruct (String.eqb k0 k'); [reflexivity | exact IH].
Qed.

Lemma dict_keys_set k v d :
  dict_keys (dict_set k v d) =
  if dict_mem k d then dict_keys d else (dict_keys d ++ [k])%list.
Proof.
  unfold dict_mem. induction d as [|[k' v'] d IH]; simpl; [reflexivity|].
  destruct (String.eqb k' k); simpl; [reflexivity|].
  rewrite IH. now destruct (dict_get k d).
Qed.

Lemma dict_wf_snoc k v d : dict_wf d -> dict_mem k d = false -> dict_wf (d ++ [(k, v)])%list.
Proof.
  unfold dict_wf. intros Hwf Hk. rewrite dict_keys_app. simpl.
  apply dict_mem_false in Hk.
  apply NoDup_app; [assumption | repeat constructor; intros [] | ].
  intros x Hx [<-|[]]. contradiction.
Qed.
End DictFacts.

(** * Facts about calls *)

Ltac run_call :=
  unfold bind, get, modify, ret, raise, subscript in *; simpl in *.

Section RaisesOnly.
Context {A B : Type} (P : exn_class -> Prop).






End RaisesOnly.



Lemma py_format_raises v e : py_format v = inl e -> e = value_error.
Proof.
  destruct v as [|b|z|t]; unfold py_format;
    [discriminate | discriminate | | discriminate].
  destruct (too_many_digits z); [|discriminate].
  intros H. inversion H. reflexivity.
Qed.

Lemma py_format_returns v text : py_format v = inr text -> text = py_str v.
Proof.
  destruct v as [|b|z|t]; unfold py_format;
    [intros H; now inversion H | intros H; now inversion H |
    | intros H; now inversion H].
  destruct (too_many_digits z); [discriminate|].
  intros H. inversion H. reflexivity.
Qed.





(** Closed forms of the three operations. *)

Lemma add_player_eq pid pname ai s :
  add_player pid pname ai s =
  if negb (GameStatus_eqb (status s) WAITING) then
    (s, inl (Exn GameNotWaitingError
                 ("游戏正在进行(" ++ status_name (status s) ++ ")，无法加入。")))
  else if dict_mem pid (players s) then (s, inr tt)
  else (set_players (dict_set pid (mkPlayer pname ai) (players s)) s, inr tt).
Proof.
  unfold add_player. run_call.
  destruct (negb _); [reflexivity|]. destruct (dict_mem _ _); reflexivity.
Qed.

(** Reading the dictionary's own keys back never fails. *)
Lemma for_each_own_keys (d : dict player) (ks : list string) s :
  incl ks (dict_keys d) ->
  exists names,
    for_each (fun pid => p <- subscript pid d ;; ret (name p)) ks s = (s, inr names).
Proof.
  induction ks as [|k ks IH]; intros Hin; simpl.
  - now exists [].
  - destruct (dict_get_In k d) as [p Hp]; [apply Hin; now left|].
    destruct IH as [names Hn]; [intros x Hx; apply Hin; now right|].
    exists (name p :: names). run_call. rewrite Hp. simpl. now rewrite Hn.
Qed.

(** The outcomes of the draw: it either writes [winning_result] only, or
    does nothing, or raises without writing. *)
Lemma generate_winning_result_cases rnd s :
  (exists w, _generate_winning_result rnd s = (set_winning_result w s, inr tt) /\
             (bet_type_is guess_number s = true \/ bet_type_is guess_parity s = true))
  \/ (_generate_winning_result rnd s = (s, inr tt) /\
      bet_type_is guess_number s = false /\ bet_type_is guess_parity s = false)
  \/ (exists e, _generate_winning_result rnd s = (s, inl e) /\
                bet_type_is guess_number s = true /\
                (exn_class_of e = KeyError \/ exn_class_of e = TypeError \/
                 exn_class_of e = ValueError)).
Proof.
  unfold _generate_winning_result, randint. run_call.
  destruct (bet_type_is guess_number s) eqn:E1.
  - destruct (dict_get "min" (bet_content s)) as [lo|]; simpl;
      [|right; right; eexists; split; [reflexivity|]; simpl; tauto].
    destruct (dict_get "max" (bet_content s)) as [hi|]; simpl;
      [|right; right; eexists; split; [reflexivity|]; simpl; tauto].
    destruct (py_index lo) as [l|]; simpl;
      [|right; right; eexists; split; [reflexivity|]; simpl; tauto].
    destruct (py_index hi) as [h|]; simpl;
      [|right; right; eexists; split; [reflexivity|]; simpl; tauto].
    destruct (h <? l); simpl.
    + right; right; eexists; split; [reflexivity|]; simpl; tauto.
    + left. eexists; split; [reflexivity | tauto].
  - destruct (bet_type_is guess_parity s) eqn:E2.
    + left. eexists; split; [reflexivity | tauto].
    + right; left. tauto.
Qed.

(** * Facts about the engine *)

Lemma GameStatus_eqb_eq a b : GameStatus_eqb a b = true <-> a = b.
Proof. destruct a, b; simpl; split; congruence. Qed.

Lemma start_game_eq rnd bt bp s :
  start_game rnd bt bp s =
  if negb (GameStatus_eqb (status s) WAITING) then
    (s, inl unbound_InvalidActionError)
  else if (length (players s) <? MIN_PLAYERS)%nat then
    (s, inl (Exn NotEnoughPlayersError
                 ("至少需要 " ++ str_of_Z (Z.of_nat MIN_PLAYERS) ++ " 人才能开始。")))
  else
    match _generate_winning_result rnd (with_bet_type bt bp s) with
    | (s2, inl e) => (s2, inl e)
    | (s2, inr _) =>
        match for_each (fun pid => p <- subscript pid (players s2) ;; ret (name p))
                       (dict_keys (players s2)) (set_status PLAYING s2) with
        | (s3, inl e) => (s3, inl e)
        | (s3, inr names) => (s3, inr (mkStart true bt bp names))
        end
    end.
Proof.
  unfold start_game, with_bet_type.
  unfold bind at 1. unfold get at 1. cbv beta iota.
  destruct (negb (GameStatus_eqb (status s) WAITING)); [reflexivity|].
  destruct (length (players s) <? MIN_PLAYERS)%nat; [reflexivity|].
  unfold bind at 1. unfold modify at 1. cbv beta iota.
  unfold bind at 1. unfold modify at 1. cbv beta iota.
  unfold bind at 1.
  destruct (_generate_winning_result rnd _) as [s2 [e|[]]]; [reflexivity|].
  unfold bind at 1. unfold modify at 1. cbv beta iota.
  unfold bind at 1. unfold get at 1. cbv beta iota.
  unfold bind at 1. simpl players.
  destruct (for_each _ _ _) as [s3 [e|names]]; reflexivity.
Qed.

Lemma start_game_cases rnd bt bp s :
  (status s <> WAITING /\
   start_game rnd bt bp s = (s, inl unbound_InvalidActionError))
  \/ (status s = WAITING /\ (length (players s) < MIN_PLAYERS)%nat /\
      exists e, exn_class_of e = NotEnoughPlayersError /\
                start_game rnd bt bp s = (s, inl e))
  \/ (status s = WAITING /\ (MIN_PLAYERS <= length (players s))%nat /\
      exists e, _generate_winning_result rnd (with_bet_type bt bp s)
                  = (with_bet_type bt bp s, inl e) /\
                (exn_class_of e = KeyError \/ exn_class_of e = TypeError \/
                 exn_class_of e = ValueError) /\
                bt = guess_number /\
                start_game rnd bt bp s = (with_bet_type bt bp s, inl e))
  \/ (status s = WAITING /\ (MIN_PLAYERS <= length (players s))%nat /\
      exists s2 names,
        _generate_winning_result rnd (with_bet_type bt bp s) = (s2, inr tt) /\
        start_game rnd bt bp s
          = (set_status PLAYING s2, inr (mkStart true bt bp names))).
Proof.
  rewrite start_game_eq.
  destruct (GameStatus_eqb (status s) WAITING) eqn:Est; simpl negb; cbv iota.
  2:{ left. split; [|reflexivity].
      intros H. apply GameStatus_eqb_eq in H. congruence. }
  apply GameStatus_eqb_eq in Est. right.
  destruct (length (players s) <? MIN_PLAYERS)%nat eqn:Elen.
  { left. apply Nat.ltb_lt in Elen. split; [exact Est|]. split; [exact Elen|].
    eexists. split; [|reflexivity]. reflexivity. }
  apply Nat.ltb_ge in Elen. right.
  destruct (generate_winning_result_cases rnd (with_bet_type bt bp s))
    as [[w [Hg _]] | [[Hg _] | [e [Hg [Hbt Hcls]]]]]; rewrite Hg.
  - right. split; [exact Est|]. split; [exact Elen|].
    destruct (for_each_own_keys
                (players (set_winning_result w (with_bet_type bt bp s)))
                (dict_keys (players (set_winning_result w (with_bet_type bt bp s))))
                (set_status PLAYING (set_winning_result w (with_bet_type bt bp s))))
      as [names Hn]; [apply incl_refl|].
    exists (set_winning_result w (with_bet_type bt bp s)), names.
    split; [reflexivity|]. now rewrite Hn.
  - right. split; [exact Est|]. split; [exact Elen|].
    destruct (for_each_own_keys
                (players (with_bet_type bt bp s))
                (dict_keys (players (with_bet_type bt bp s)))
                (set_status PLAYING (with_bet_type bt bp s)))
      as [names Hn]; [apply incl_refl|].
    exists (with_bet_type bt bp s), names.
    split; [reflexivity|]. now rewrite Hn.
  - left. split; [exact Est|]. split; [exact Elen|].
    exists e. split; [reflexivity|]. split; [exact Hcls|]. split; [|reflexivity].
    unfold bet_type_is, with_bet_type in Hbt. simpl in Hbt.
    now apply String.eqb_eq in Hbt.
Qed.

Lemma set_winning_result_same s : set_winning_result (winning_result s) s = s.
Proof. now destruct s. Qed.

(** A draw that returns leaves a result that fits the bet type. *)
Lemma generate_winning_result_matches rnd s s2 t :
  _generate_winning_result rnd s = (s2, inr tt) ->
  bet_type s = Some t ->
  winning_result s = VNone ->
  s2 = set_winning_result (winning_result s2) s /\
  winning_matches t (bet_content s) (winning_result s2).
Proof.
  intros Hg Ht Hw. unfold _generate_winning_result, randint in Hg.
  unfold bind at 1, get at 1 in Hg. cbv beta iota in Hg.
  unfold winning_matches, bet_type_is in *. rewrite Ht in Hg. run_call.
  destruct (String.eqb t guess_number) eqn:E1.
  - destruct (dict_get "min" (bet_content s)) as [vlo|] eqn:Emin; simpl in Hg;
      [|discriminate].
    destruct (dict_get "max" (bet_content s)) as [vhi|] eqn:Emax; simpl in Hg;
      [|discriminate].
    destruct (py_index vlo) as [lo|] eqn:Elo; simpl in Hg; [|discriminate].
    destruct (py_index vhi) as [hi|] eqn:Ehi; simpl in Hg; [|discriminate].
    destruct (hi <? lo) eqn:Ecmp; simpl in Hg; [discriminate|].
    inversion Hg; subst s2; clear Hg. simpl. split; [reflexivity|].
    apply Z.ltb_ge in Ecmp.
    exists vlo, vhi, lo, hi, (lo + rnd mod (hi - lo + 1)).
    repeat split; try assumption; try reflexivity.
    + pose proof (Z.mod_pos_bound rnd (hi - lo + 1)). lia.
    + pose proof (Z.mod_pos_bound rnd (hi - lo + 1)). lia.
  - destruct (String.eqb t guess_parity) eqn:E2.
    + inversion Hg; subst s2; clear Hg. simpl. split; [reflexivity|].
      destruct (_ =? 0); [now left | now right].
    + inversion Hg; subst s2; clear Hg.
      split; [now rewrite set_winning_result_same | exact Hw].
Qed.

Lemma dict_get_default_found {V} k (dflt v : V) d :
  dict_get k d = Some v -> dict_get_default k dflt d = v.
Proof. unfold dict_get_default. now intros ->. Qed.

(** The loop of [_end_game] over bets of enrolled players: it reads the
    state only and appends one entry per bet, in order. *)
Lemma end_game_loop_eq s items acc :
  incl (dict_keys items) (dict_keys (players s)) ->
  NoDup (dict_keys acc ++ dict_keys items)%list ->
  _end_game_loop items acc s = (s, inr (acc ++ map (entry_of s) items)%list).
Proof.
  revert acc. induction items as [|[pid bet] rest IH]; intros acc Hin Hnd; simpl.
  - now rewrite app_nil_r.
  - destruct (dict_get_In pid (players s)) as [p Hp]; [apply Hin; now left|].
    run_call. rewrite Hp. simpl.
    assert (Hfresh : dict_mem pid acc = false).
    { apply dict_mem_false. intros Hacc.
      apply NoDup_remove_2 in Hnd. apply Hnd. apply in_or_app. now left. }
    rewrite (dict_set_fresh _ _ _ Hfresh).
    rewrite IH.
    + rewrite <- app_assoc. simpl. unfold entry_of at 2. simpl.
      now rewrite (dict_get_default_found _ _ _ _ Hp).
    + intros x Hx. apply Hin. now right.
    + rewrite dict_keys_app. simpl. rewrite <- app_assoc. exact Hnd.
Qed.

Lemma dict_keys_map_entry_of s items :
  dict_keys (map (entry_of s) items) = dict_keys items.
Proof.
  unfold dict_keys. rewrite map_map. apply map_ext. now intros [k v].
Qed.


(** [process_bet] up to the point where the bet is recorded and logged. *)
Lemma process_bet_eq pid bet s :
  process_bet pid bet s =
  if negb (GameStatus_eqb (status s) PLAYING) then
    (s, inl (Exn GameNotPlayingError
                 ("游戏需要为 PLAYING 状态 (当前: " ++ status_name (status s) ++ ")。")))
  else if negb (dict_mem pid (players s)) then
    (s, inl (Exn PlayerNotInGameError ("玩家 " ++ pid ++ " 不在本局。")))
  else if dict_mem pid (player_bets s) then
    (s, inl unbound_InvalidActionError)
  else
    match dict_get pid (players s) with
    | None => (with_bet pid bet s, inl (Exn KeyError ("'" ++ pid ++ "'")))
    | Some p =>
        match py_format bet with
        | inl e => (with_bet pid bet s, inl e)
        | inr _ =>
            if (length (player_bets (with_bet pid bet s)) =? length (players s))%nat
            then
              match _end_game_loop (player_bets (with_bet pid bet s)) []
                                   (with_bet pid bet s) with
              | (s2, inl e) => (s2, inl e)
              | (s2, inr results) =>
                  match dict_get pid (players s2) with
                  | None =>
                      (set_status ENDED s2, inl (Exn KeyError ("'" ++ pid ++ "'")))
                  | Some p2 =>
                      (set_status ENDED s2,
                       inr (mkBet true "bet" pid (name p2) bet true (Some results)))
                  end
              end
            else (with_bet pid bet s,
                  inr (mkBet true "bet" pid (name p) bet false None))
        end
    end.
Proof.
  unfold process_bet, _check_is_playing, _end_game, with_bet.
  unfold bind at 1. unfold bind at 1. unfold get at 1. cbv beta iota.
  destruct (negb (GameStatus_eqb (status s) PLAYING)); [reflexivity|].
  unfold ret at 1. cbv beta iota.
  unfold bind at 1. unfold get at 1. cbv beta iota.
  destruct (negb (dict_mem pid (players s))); [reflexivity|].
  destruct (dict_mem pid (player_bets s)); [reflexivity|].
  unfold bind at 1. unfold modify at 1. cbv beta iota.
  unfold bind at 1. unfold get at 1. cbv beta iota.
  unfold bind at 1. unfold subscript at 1.
  cbn [players player_bets set_player_bets].
  destruct (dict_get pid (players s)) as [p|] eqn:Hp; [|reflexivity].
  unfold ret at 1. cbv beta iota.
  unfold bind at 1. unfold formatted.
  destruct (py_format bet) as [e|text]; [reflexivity|].
  unfold ret at 1. cbv beta iota.
  destruct (length _ =? length _)%nat.
  - unfold bind at 1. unfold bind at 1. unfold get at 1. cbv beta iota.
    unfold bind at 1. cbn [players player_bets set_player_bets].
    destruct (_end_game_loop _ _ _) as [s2 [e|results]]; [reflexivity|].
    unfold bind at 1. unfold modify at 1. cbv beta iota.
    unfold ret at 1. cbv beta iota.
    unfold bind at 1. unfold get at 1. cbv beta iota.
    unfold bind at 1. unfold subscript.
    cbn [players set_status].
    destruct (dict_get pid (players s2)); reflexivity.
  - unfold bind, subscript. cbn [players set_player_bets]. rewrite Hp. reflexivity.
Qed.



(** [process_bet] for an enrolled player who has not bet yet, in a round
    whose bets all come from enrolled players. *)
Lemma process_bet_ok s pid bet p :
  dict_wf (player_bets s) ->
  incl (dict_keys (player_bets s)) (dict_keys (players s)) ->
  status s = PLAYING ->
  dict_get pid (players s) = Some p ->
  dict_mem pid (player_bets s) = false ->
  with_bet pid bet s = set_player_bets (player_bets s ++ [(pid, bet)])%list s /\
  process_bet pid bet s =
  match py_format bet with
  | inl e => (with_bet pid bet s, inl e)
  | inr _ =>
      if (length (player_bets s) + 1 =? length (players s))%nat then
        (set_status ENDED (with_bet pid bet s),
         inr (mkBet true "bet" pid (name p) bet true
                (Some (map (entry_of (with_bet pid bet s))
                           (player_bets s ++ [(pid, bet)])%list))))
      else
        (with_bet pid bet s, inr (mkBet true "bet" pid (name p) bet false None))
  end.
Proof.
  intros Hwf Hsub Hst Hp Hfresh.
  assert (Hwb : with_bet pid bet s = set_player_bets (player_bets s ++ [(pid, bet)])%list s).
  { unfold with_bet. now rewrite (dict_set_fresh _ _ _ Hfresh). }
  split; [exact Hwb|].
  rewrite process_bet_eq. rewrite Hst. simpl negb. cbv iota.
  assert (Hmem : dict_mem pid (players s) = true).
  { apply dict_mem_In. now apply dict_get_Some_In with p. }
  rewrite Hmem, Hfresh, Hp. simpl negb. cbv iota.
  destruct (py_format bet) as [e|text]; [reflexivity|].
  rewrite Hwb. cbn [player_bets set_player_bets].
  rewrite length_app. simpl length.
  destruct (length (player_bets s) + 1 =? length (players s))%nat; [|reflexivity].
  rewrite end_game_loop_eq.
  - cbn [players set_player_bets set_status]. rewrite Hp. reflexivity.
  - cbn [players set_player_bets]. rewrite dict_keys_app. simpl.
    intros x Hx. apply in_app_or in Hx. destruct Hx as [Hx|[<-|[]]].
    + now apply Hsub.
    + now apply dict_get_Some_In with p.
  - simpl. apply (dict_wf_snoc pid bet _ Hwf Hfresh).
Qed.

(** * The invariant *)

Lemma Inv_new_game creator : Inv (new_game creator).
Proof.
  constructor; simpl.
  - constructor.
  - constructor.
  - intros x [].
  - intros _. repeat split. now left.
  - intros H. now elim H.
Qed.

Lemma Inv_add_player s pid pname ai : Inv s -> Inv (fst (add_player pid pname ai s)).
Proof.
  intros [Hp Hb Hsub Hw Hs]. rewrite add_player_eq.
  destruct (negb _); [now constructor|].
  destruct (dict_mem pid (players s)) eqn:Hmem; [now constructor|].
  simpl. rewrite (dict_set_fresh _ _ _ Hmem).
  constructor; cbn [players player_bets status bet_type bet_content winning_result
                    set_players]; try assumption.
  - now apply dict_wf_snoc.
  - rewrite dict_keys_app. now apply incl_appl.
Qed.

Lemma Inv_start_game s rnd bt bp : Inv s -> Inv (fst (start_game rnd bt bp s)).
Proof.
  intros HI. pose proof HI as [Hp Hb Hsub Hw Hs].
  destruct (start_game_cases rnd bt bp s)
    as [[_ ->] | [[_ [_ [e [_ ->]]]] | [[Hst [_ [e [_ [_ [Hbt ->]]]]]]
                                       | [Hst [_ [s2 [names [Hg ->]]]]]]]];
    simpl fst; try exact HI.
  - destruct (Hw Hst) as [Hb0 [Hw0 _]].
    constructor; cbn [players player_bets status bet_type bet_content winning_result
                      with_bet_type set_bet_content set_bet_type]; try assumption.
    + intros _. subst bt. repeat split; try assumption. now right.
    + intros H. now elim H.
  - destruct (Hw Hst) as [Hb0 [Hw0 _]].
    destruct (generate_winning_result_matches rnd _ _ bt Hg) as [Heq Hm];
      [reflexivity | exact Hw0 |].
    rewrite Heq.
    constructor; cbn [players player_bets status bet_type bet_content winning_result
                      with_bet_type set_bet_content set_bet_type set_status
                      set_winning_result]; try assumption.
    + discriminate.
    + intros _. exists bt. split; [reflexivity | exact Hm].
Qed.

Lemma Inv_process_bet s pid bet : Inv s -> Inv (fst (process_bet pid bet s)).
Proof.
  intros HI. pose proof HI as [Hp Hb Hsub Hw Hs].
  destruct (GameStatus_eqb (status s) PLAYING) eqn:Est.
  2:{ rewrite process_bet_eq, Est. exact HI. }
  apply GameStatus_eqb_eq in Est.
  destruct (dict_get pid (players s)) as [p|] eqn:Hget.
  2:{ rewrite process_bet_eq, Est. unfold dict_mem. rewrite Hget. exact HI. }
  destruct (dict_mem pid (player_bets s)) eqn:Hmem.
  { rewrite process_bet_eq, Est, Hmem.
    destruct (negb (dict_mem pid (players s))); exact HI. }
  destruct (process_bet_ok s pid bet p Hb Hsub Est Hget Hmem) as [Hwb ->].
  assert (Hne : status s <> WAITING) by congruence.
  assert (Hsub' : incl (dict_keys (player_bets s ++ [(pid, bet)])%list)
                       (dict_keys (players s))).
  { rewrite dict_keys_app. apply incl_app; [assumption|].
    intros x [<-|[]]. now apply dict_get_Some_In with p. }
  assert (HI1 : Inv (with_bet pid bet s)).
  { rewrite Hwb.
    constructor; cbn [players player_bets status bet_type bet_content winning_result
                      set_player_bets]; try assumption.
    - now apply dict_wf_snoc.
    - intros H. congruence. }
  assert (HI2 : Inv (set_status ENDED (with_bet pid bet s))).
  { rewrite Hwb.
    constructor; cbn [players player_bets status bet_type bet_content winning_result
                      set_player_bets set_status]; try assumption.
    - now apply dict_wf_snoc.
    - discriminate.
    - intros _. now apply Hs. }
  destruct (py_format bet); [exact HI1|].
  destruct (_ =? _)%nat; [exact HI2 | exact HI1].
Qed.

Lemma Inv_after o s : Inv s -> Inv (after o s).
Proof.
  intros HI. unfold after. destruct o as [pid pn ai | rnd bt bp | pid bet]; simpl.
  - pose proof (Inv_add_player s pid pn ai HI) as H.
    unfold bind. destruct (add_player pid pn ai s) as [s' [e|[]]]; exact H.
  - pose proof (Inv_start_game s rnd bt bp HI) as H.
    unfold bind. destruct (start_game rnd bt bp s) as [s' [e|r]]; exact H.
  - pose proof (Inv_process_bet s pid bet HI) as H.
    unfold bind. destruct (process_bet pid bet s) as [s' [e|r]]; exact H.
Qed.

Lemma Inv_run ops s : Inv s -> Inv (run ops s).
Proof.
  revert s. induction ops as [|o ops IH]; intros s HI; simpl; [exact HI|].
  apply IH. now apply Inv_after.
Qed.

Lemma reachable_Inv s : reachable s -> Inv s.
Proof. intros [creator [ops <-]]. apply Inv_run, Inv_new_game. Qed.

Lemma reachable_after o s : reachable s -> reachable (after o s).
Proof.
  intros [creator [ops <-]]. exists creator, (ops ++ [o])%list.
  unfold run. now rewrite fold_left_app.
Qed.

(** * Auxiliary facts for the properties below *)

Lemma fst_bind_ret {A B} (c : M A) (f : A -> B) s :
  fst ((x <- c ;; ret (f x)) s) = fst (c s).
Proof. unfold bind, ret. now destruct (c s) as [s' [e|a]]. Qed.

Lemma after_AddPlayer pid pn ai s :
  after (AddPlayer pid pn ai) s = fst (add_player pid pn ai s).
Proof. unfold after. simpl. apply (fst_bind_ret _ (fun _ => RetNone)). Qed.

Lemma after_StartGame rnd bt bp s :
  after (StartGame rnd bt bp) s = fst (start_game rnd bt bp s).
Proof. unfold after. simpl. apply (fst_bind_ret _ RetStart). Qed.

Lemma after_ProcessBet pid bet s :
  after (ProcessBet pid bet) s = fst (process_bet pid bet s).
Proof. unfold after. simpl. apply (fst_bind_ret _ RetBet). Qed.

Lemma end_game_loop_state items acc s s' r :
  _end_game_loop items acc s = (s', r) -> s' = s.
Proof.
  revert acc. induction items as [|[pid bet] rest IH]; intros acc; simpl.
  - unfold ret. congruence.
  - run_call. destruct (dict_get pid (players s)) as [p|]; simpl.
    + apply IH.
    + congruence.
Qed.

(** An operation leaves [players] alone or appends one new key. *)
Lemma players_after o s :
  players (after o s) = players s \/
  exists pid p, dict_mem pid (players s) = false /\
                players (after o s) = (players s ++ [(pid, p)])%list.
Proof.
  destruct o as [pid pn ai | rnd bt bp | pid bet].
  - rewrite after_AddPlayer, add_player_eq.
    destruct (negb _); [now left|].
    destruct (dict_mem pid (players s)) eqn:Hmem; [now left|].
    right. exists pid, (mkPlayer pn ai). split; [exact Hmem|].
    simpl. now rewrite (dict_set_fresh _ _ _ Hmem).
  - left. rewrite after_StartGame.
    destruct (start_game_cases rnd bt bp s)
      as [[_ ->] | [[_ [_ [e [_ ->]]]] | [[_ [_ [e [_ [_ [_ ->]]]]]]
                                         | [_ [_ [s2 [names [Hg ->]]]]]]]];
      try reflexivity.
    simpl.
    destruct (generate_winning_result_cases rnd (with_bet_type bt bp s))
      as [[w [Hg' _]] | [[Hg' _] | [e [Hg' _]]]];
      rewrite Hg' in Hg; inversion Hg; reflexivity.
  - left. rewrite after_ProcessBet, process_bet_eq.
    destruct (negb _); [reflexivity|].
    destruct (negb _); [reflexivity|].
    destruct (dict_mem pid (player_bets s)); [reflexivity|].
    destruct (dict_get pid (players s)); [|reflexivity].
    destruct (py_format bet); [reflexivity|].
    destruct (_ =? _)%nat; [|reflexivity].
    destruct (_end_game_loop _ _ _) as [s2 [e|results]] eqn:Hloop;
      apply end_game_loop_state in Hloop; subst s2.
    + reflexivity.
    + destruct (dict_get pid _); reflexivity.
Qed.

Lemma players_persist_after o s q p :
  dict_get q (players s) = Some p -> dict_get q (players (after o s)) = Some p.
Proof.
  intros Hq. destruct (players_after o s) as [->|[pid [p' [_ ->]]]]; [exact Hq|].
  rewrite dict_get_app. now rewrite Hq.
Qed.

Lemma players_persist_run ops s q p :
  dict_get q (players s) = Some p -> dict_get q (players (run ops s)) = Some p.
Proof.
  revert s. induction ops as [|o ops IH]; intros s Hq; simpl; [exact Hq|].
  apply IH. now apply players_persist_after.
Qed.

Lemma reachable_run ops s : reachable s -> reachable (run ops s).
Proof.
  revert s. induction ops as [|o ops IH]; intros s Hr; simpl; [exact Hr|].
  apply IH. now apply reachable_after.
Qed.


Lemma reachable_demo_waiting : reachable demo_waiting.
Proof. exists None, demo_join. reflexivity. Qed.

Lemma reachable_demo_parity : reachable demo_parity.
Proof. apply reachable_after, reachable_demo_waiting. Qed.

Lemma reachable_demo_parity_one_bet : reachable demo_parity_one_bet.
Proof. apply reachable_after, reachable_demo_parity. Qed.

Lemma reachable_demo_unknown : reachable demo_unknown.
Proof. apply reachable_after, reachable_demo_waiting. Qed.


(** * Properties of the engine and the renderer *)





(** C2: a bet for a player who is not enrolled is refused with
    [PlayerNotInGameError] and nothing changes, as the claim says.  A
    second bet of the same player leaves [player_bets] unchanged as well,
    but what is raised is [NameError], which is not a [GameError]: the
    name [InvalidActionError] is not bound in [game_logic.py]. *)
Theorem second_bet_raises_NameError :
  dict_mem "111" (players demo_parity_one_bet) = true /\
  dict_get "111" (player_bets demo_parity_one_bet) = Some (VStr even_tag) /\
  status demo_parity_one_bet = PLAYING /\
  (exists e,
      process_bet "nobody" (VStr odd_tag) demo_parity_one_bet
        = (demo_parity_one_bet, inl e) /\
      exn_class_of e = PlayerNotInGameError) /\
  (exists e,
      process_bet "111" (VStr odd_tag) demo_parity_one_bet
        = (demo_parity_one_bet, inl e) /\
      exn_class_of e = NameError /\
      exn_class_of e <> InvalidActionError /\
      is_GameError (exn_class_of e) = false).
Proof.
  split; [reflexivity|]. split; [reflexivity|]. split; [reflexivity|]. split.
  - eexists. split; [vm_compute; reflexivity | reflexivity].
  - eexists. split; [vm_compute; reflexivity|].
    split; [reflexivity|]. split; [discriminate | reflexivity].
Qed.

(** [start_game] outside the WAITING status, on any state. *)
Lemma start_game_not_waiting s rnd bt bp :
  status s <> WAITING ->
  start_game rnd bt bp s = (s, inl unbound_InvalidActionError).
Proof.
  intros Hst. rewrite start_game_eq.
  destruct (GameStatus_eqb (status s) WAITING) eqn:E; [|reflexivity].
  apply GameStatus_eqb_eq in E. contradiction.
Qed.

(** C3: [start_game] on a game that is already PLAYING leaves the state
    unchanged, as the claim says, but what is raised is [NameError] and
    not [InvalidActionError]: the name is not bound in [game_logic.py].
    [add_player] on the same game raises [GameNotWaitingError]. *)
Theorem start_game_twice_raises_NameError :
  status demo_parity = PLAYING /\
  (exists e,
      start_game 0 guess_parity [] demo_parity = (demo_parity, inl e) /\
      exn_class_of e = NameError /\
      exn_class_of e <> InvalidActionError /\
      is_GameError (exn_class_of e) = false) /\
  (exists e,
      add_player "222" "C" false demo_parity = (demo_parity, inl e) /\
      exn_class_of e = GameNotWaitingError).
Proof.
  split; [reflexivity|]. split.
  - eexists. split; [vm_compute; reflexivity|].
    split; [reflexivity|]. split; [discriminate | reflexivity].
  - eexists. split; [vm_compute; reflexivity | reflexivity].
Qed.

(** Whatever the entries say, the trailing segment reads "猜对": the
    condition tests the entry dictionary, and a dictionary with keys is
    true. *)
Lemma build_bet_result_message_trailing results pid entry :
  dict_truthy entry = true ->
  last (build_bet_result_message results (pid, entry)) (Plain EmptyString) = Plain " 猜对！".
Proof.
  intros Ht. unfold build_bet_result_message. rewrite Ht.
  rewrite app_assoc. apply last_last.
Qed.

(** C4: the results of the sample odd-or-even round, in which both players
    bet ["双"] against a winning result ["单"] and so both lose, are
    rendered as two messages that both end in " 猜对！", where the claim
    asks for "猜错！": the loop variable named [is_win] holds the whole
    entry, not its ["is_win"] field. *)
Theorem build_bet_result_messages_always_win :
  exists s' payload results,
    process_bet "ai-1" (VStr even_tag) demo_parity_one_bet = (s', inr payload) /\
    winning_result s' = VStr odd_tag /\
    bet_results payload = Some results /\
    results = [("111", result_entry "A" false false);
               ("ai-1", result_entry "B" true false)] /\
    build_bet_result_messages results =
    [[Plain "👉 "; At 111; Plain "(A)"; Plain " 猜对！"];
     [Plain "👉 "; Plain "🤖 B"; Plain " 猜对！"]] /\
    map spec_trailing_segment (map snd results) =
    [Plain " 猜错！"; Plain " 猜错！"].
Proof.
  eexists _, _, _. split; [vm_compute; reflexivity|].
  split; [reflexivity|]. split; [reflexivity|]. split; [reflexivity|].
  split; vm_compute; reflexivity.
Qed.





(** C6, as stated, fails: [start_game] accepts a bet type it does not
    know, and the game is then PLAYING with [winning_result] still
    [None]. *)
Lemma unknown_bet_type_counterexample :
  reachable demo_unknown /\
  status demo_unknown = PLAYING /\
  bet_type demo_unknown = Some "猜大小" /\
  winning_result demo_unknown = VNone.
Proof.
  split; [exact reachable_demo_unknown|]. repeat split.
Qed.

(** C6, amended: in every game, while the status is WAITING
    [winning_result] is unset, and [bet_type] is unset or is the
    guess-the-number tag left behind by a [start_game] whose draw raised;
    once the status is PLAYING or ENDED, [bet_type] is set, and
    [winning_result] is an integer within the stored bounds for the
    guess-the-number tag, ["单"] or ["双"] for the odd-or-even tag, and
    unset for every other bet type. *)
Theorem bet_type_and_winning_result_by_status :
  forall s,
    reachable s ->
    (status s = WAITING ->
     winning_result s = VNone /\
     (bet_type s = None \/ bet_type s = Some guess_number)) /\
    (status s <> WAITING ->
     exists t,
       bet_type s = Some t /\
       winning_matches t (bet_content s) (winning_result s) /\
       (winning_result s <> VNone <-> recognized (bet_type s) = true)).
Proof.
  intros s Hreach. destruct (reachable_Inv s Hreach) as [_ _ _ Hw Hs]. split.
  - intros Hst. destruct (Hw Hst) as [_ [H1 H2]]. now split.
  - intros Hst. destruct (Hs Hst) as [t [Ht Hm]]. exists t.
    split; [exact Ht|]. split; [exact Hm|].
    rewrite Ht. unfold recognized, winning_matches in *.
    destruct (String.eqb t guess_number).
    + destruct Hm as [vlo [vhi [lo [hi [z [_ [_ [_ [_ [-> _]]]]]]]]]].
      simpl. split; [reflexivity | discriminate].
    + destruct (String.eqb t guess_parity); simpl.
      * destruct Hm as [-> | ->]; split; (reflexivity || discriminate).
      * rewrite Hm. split; [intros H; now elim H | discriminate].
Qed.

(** C6 on the sample rounds: the odd-or-even round has its result, the
    round of unknown type has none. *)
Lemma bet_type_and_winning_result_by_status_witness :
  (winning_result demo_parity = VStr odd_tag /\
   winning_result demo_unknown = VNone) /\
  ((status demo_parity = WAITING ->
    winning_result demo_parity = VNone /\
    (bet_type demo_parity = None \/ bet_type demo_parity = Some guess_number)) /\
   (status demo_parity <> WAITING ->
    exists t,
      bet_type demo_parity = Some t /\
      winning_matches t (bet_content demo_parity) (winning_result demo_parity) /\
      (winning_result demo_parity <> VNone <->
       recognized (bet_type demo_parity) = true))).
Proof.
  split; [split; reflexivity|].
  apply (bet_type_and_winning_result_by_status demo_parity).
  exists None, (demo_join ++ [StartGame 0 guess_parity []])%list. reflexivity.
Defined.

(** C7: in every game the keys of [player_bets] are keys of [players], and
    after any further sequence of [add_player], [start_game] and
    [process_bet] calls this still holds and every entry of [players] is
    still there, unchanged. *)
Theorem bets_within_players_and_players_kept :
  forall s,
    reachable s ->
    forall ops,
      incl (dict_keys (player_bets (run ops s))) (dict_keys (players (run ops s))) /\
      (forall q p, dict_get q (players s) = Some p ->
                   dict_get q (players (run ops s)) = Some p) /\
      (forall q, In q (dict_keys (players s)) ->
                 In q (dict_keys (players (run ops s)))).
Proof.
  intros s Hreach ops.
  destruct (reachable_Inv _ (reachable_run ops s Hreach)) as [_ _ Hsub _ _].
  split; [exact Hsub|]. split.
  - intros q p. apply players_persist_run.
  - intros q Hq. destruct (dict_get_In q (players s) Hq) as [p Hp].
    apply dict_get_Some_In with p. now apply players_persist_run.
Qed.

(** C7 on the sample game, followed by the rest of a round. *)
Lemma bets_within_players_and_players_kept_witness :
  let ops := [StartGame 0 guess_parity []; ProcessBet "111" (VStr even_tag);
              ProcessBet "ai-1" (VStr odd_tag); AddPlayer "222" "C" false] in
  dict_keys (player_bets (run ops demo_waiting)) = ["111"; "ai-1"] /\
  incl (dict_keys (player_bets (run ops demo_waiting)))
       (dict_keys (players (run ops demo_waiting))) /\
  (forall q p, dict_get q (players demo_waiting) = Some p ->
               dict_get q (players (run ops demo_waiting)) = Some p) /\
  (forall q, In q (dict_keys (players demo_waiting)) ->
             In q (dict_keys (players (run ops demo_waiting)))).
Proof.
  intros ops. split; [reflexivity|].
  apply (bets_within_players_and_players_kept demo_waiting).
  exists None, demo_join. reflexivity.
Defined.

(** C8: in every game in WAITING status, [add_player] with an id that is
    already in [players] returns without raising and leaves the whole
    state as it was, whatever name and AI flag it is given: the id still
    occurs exactly once in [players], with the entry stored first. *)
Theorem add_player_again_is_ignored :
  forall s player_id player_name ai p,
    reachable s ->
    status s = WAITING ->
    dict_get player_id (players s) = Some p ->
    add_player player_id player_name ai s = (s, inr tt) /\
    after (AddPlayer player_id player_name ai) s = s /\
    count_occ string_dec (dict_keys (players s)) player_id = 1%nat.
Proof.
  intros s pid pn ai p Hreach Hst Hget.
  destruct (reachable_Inv s Hreach) as [Hp _ _ _ _].
  assert (Heq : add_player pid pn ai s = (s, inr tt)).
  { rewrite add_player_eq, Hst. unfold dict_mem. now rewrite Hget. }
  split; [exact Heq|]. split.
  - now rewrite after_AddPlayer, Heq.
  - pose proof (dict_get_Some_In _ _ _ Hget) as Hin.
    apply (count_occ_In string_dec) in Hin.
    pose proof (proj1 (NoDup_count_occ string_dec _) Hp pid). lia.
Qed.

(** C8 on the sample game: the human player joins again under another
    name and as an AI. *)
Lemma add_player_again_is_ignored_witness :
  dict_get "111" (players demo_waiting) = Some (mkPlayer "A" false) /\
  add_player "111" "Z" true demo_waiting = (demo_waiting, inr tt) /\
  after (AddPlayer "111" "Z" true) demo_waiting = demo_waiting /\
  count_occ string_dec (dict_keys (players demo_waiting)) "111" = 1%nat.
Proof.
  split; [reflexivity|].
  apply (add_player_again_is_ignored demo_waiting "111" "Z" true (mkPlayer "A" false)).
  - exists None, demo_join. reflexivity.
  - reflexivity.
  - reflexivity.
Defined.






(** * Further properties of the engine *)

(** Induction over the calls that made a game. *)
Lemma run_preserves (P : game_state -> Prop) :
  (forall s o, reachable s -> P s -> P (after o s)) ->
  forall ops s, reachable s -> P s -> P (run ops s).
Proof.
  intros Hstep ops. induction ops as [|o ops IH]; intros s Hr HP; simpl; [exact HP|].
  apply IH; [now apply reachable_after | now apply Hstep].
Qed.

Lemma reachable_new_game creator : reachable (new_game creator).
Proof. now exists creator, []. Qed.

Lemma reachable_ind_P (P : game_state -> Prop) :
  (forall creator, P (new_game creator)) ->
  (forall s o, reachable s -> P s -> P (after o s)) ->
  forall s, reachable s -> P s.
Proof.
  intros H0 Hstep s [creator [ops <-]].
  apply run_preserves; [exact Hstep | apply reachable_new_game | apply H0].
Qed.

(** What one call does to the status. *)
Lemma status_after o s :
  status (after o s) = status s \/
  (status s = WAITING /\ status (after o s) = PLAYING /\
   exists rnd bt bp, o = StartGame rnd bt bp) \/
  (status s = PLAYING /\ status (after o s) = ENDED /\
   exists pid bet, o = ProcessBet pid bet).
Proof.
  destruct o as [pid pn ai | rnd bt bp | pid bet].
  - left. rewrite after_AddPlayer, add_player_eq.
    destruct (negb _); [reflexivity|]. destruct (dict_mem _ _); reflexivity.
  - rewrite after_StartGame.
    destruct (start_game_cases rnd bt bp s)
      as [[_ ->] | [[_ [_ [e [_ ->]]]] | [[_ [_ [e [_ [_ [_ ->]]]]]]
                                         | [Hst [_ [s2 [names [_ ->]]]]]]]];
      try (left; reflexivity).
    right. left. split; [exact Hst|]. split; [reflexivity|]. now exists rnd, bt, bp.
  - rewrite after_ProcessBet, process_bet_eq.
    destruct (GameStatus_eqb (status s) PLAYING) eqn:Est; [|now left].
    apply GameStatus_eqb_eq in Est. simpl negb. cbv iota.
    destruct (negb _); [now left|].
    destruct (dict_mem pid (player_bets s)); [now left|].
    destruct (dict_get pid (players s)); [|now left].
    destruct (py_format bet); [now left|].
    destruct (_ =? _)%nat; [|now left].
    destruct (_end_game_loop _ _ _) as [s2 [e|results]] eqn:Hloop;
      apply end_game_loop_state in Hloop; subst s2; [now left|].
    right. right. split; [exact Est|]. split.
    + destruct (dict_get pid _); reflexivity.
    + now exists pid, bet.
Qed.

(** X1: the status of a game only moves forward, from WAITING to PLAYING
    to ENDED, whatever calls are made and whether they return or raise;
    one call moves it at most one step, only [start_game] leaves WAITING
    and only [process_bet] leaves PLAYING. *)
Theorem status_only_moves_forward :
  forall ops s,
    (status_rank (status s) <= status_rank (status (run ops s)))%nat /\
    (forall o,
        status (after o s) = status s \/
        (status s = WAITING /\ status (after o s) = PLAYING /\
         exists rnd bt bp, o = StartGame rnd bt bp) \/
        (status s = PLAYING /\ status (after o s) = ENDED /\
         exists pid bet, o = ProcessBet pid bet)).
Proof.
  intros ops s. split; [|intros o; apply status_after].
  revert s. induction ops as [|o ops IH]; intros s; simpl; [lia|].
  specialize (IH (after o s)).
  destruct (status_after o s) as [H | [[H1 [H2 _]] | [H1 [H2 _]]]].
  - now rewrite <- H.
  - rewrite H1. rewrite H2 in IH. simpl in *. lia.
  - rewrite H1. rewrite H2 in IH. simpl in *. lia.
Qed.

Lemma ended_call_raises o s :
  status s = ENDED -> exists e, call o s = (s, inl e).
Proof.
  intros Hst. destruct o as [pid pn ai | rnd bt bp | pid bet]; simpl; unfold bind.
  - rewrite add_player_eq, Hst. simpl. eexists. reflexivity.
  - rewrite start_game_not_waiting; [|congruence]. eexists. reflexivity.
  - rewrite process_bet_eq, Hst. simpl. eexists. reflexivity.
Qed.

(** X2: a game whose status is ENDED is frozen: each of the three
    operations raises on it, and no sequence of calls changes anything in
    its state. *)
Theorem ended_game_is_frozen :
  forall s,
    status s = ENDED ->
    (forall o, exists e, call o s = (s, inl e)) /\
    (forall ops, run ops s = s).
Proof.
  intros s Hst. split; [intros o; now apply ended_call_raises|].
  intros ops. induction ops as [|o ops IH]; simpl; [reflexivity|].
  destruct (ended_call_raises o s Hst) as [e He].
  unfold after. rewrite He. exact IH.
Qed.

Lemma ended_game_is_frozen_witness :
  status demo_ended = ENDED /\
  (forall o, exists e, call o demo_ended = (demo_ended, inl e)) /\
  (forall ops, run ops demo_ended = demo_ended).
Proof.
  split; [reflexivity|].
  apply (ended_game_is_frozen demo_ended). reflexivity.
Defined.

Lemma bet_count_ok_after s o : reachable s -> bet_count_ok s -> bet_count_ok (after o s).
Proof.
  intros Hreach [Hmin [Hplay Hend]].
  destruct (reachable_Inv s Hreach) as [Hp Hb Hsub Hw _].
  destruct o as [pid pn ai | rnd bt bp | pid bet].
  - rewrite after_AddPlayer, add_player_eq.
    destruct (GameStatus_eqb (status s) WAITING) eqn:Est; simpl negb; cbv iota;
      [|now repeat split].
    apply GameStatus_eqb_eq in Est.
    destruct (dict_mem pid (players s)); [now repeat split|].
    simpl fst. unfold bet_count_ok. cbn [status set_players].
    rewrite Est. repeat split; intros H; congruence.
  - rewrite after_StartGame.
    destruct (start_game_cases rnd bt bp s)
      as [[_ ->] | [[_ [_ [e [_ ->]]]] | [[Hst [_ [e [_ [_ [_ ->]]]]]]
                                         | [Hst [Hlen [s2 [names [Hg ->]]]]]]]];
      simpl fst; try (now repeat split).
    destruct (Hw Hst) as [Hb0 _].
    assert (Hs2 : players s2 = players s /\ player_bets s2 = player_bets s).
    { destruct (generate_winning_result_cases rnd (with_bet_type bt bp s))
        as [[w [Hg' _]] | [[Hg' _] | [e [Hg' _]]]];
        rewrite Hg' in Hg; inversion Hg; now split. }
    destruct Hs2 as [Hps Hbs].
    unfold bet_count_ok. cbn [status players player_bets set_status].
    rewrite Hps, Hbs, Hb0. repeat split; try (intros H; discriminate H); intros _.
    + exact Hlen.
    + simpl. unfold MIN_PLAYERS in Hlen. lia.
  - rewrite after_ProcessBet.
    destruct (GameStatus_eqb (status s) PLAYING) eqn:Est.
    2:{ rewrite process_bet_eq, Est. now repeat split. }
    apply GameStatus_eqb_eq in Est.
    destruct (dict_get pid (players s)) as [p|] eqn:Hget.
    2:{ rewrite process_bet_eq, Est. unfold dict_mem. rewrite Hget. now repeat split. }
    destruct (dict_mem pid (player_bets s)) eqn:Hmem.
    { rewrite process_bet_eq, Est, Hmem.
      destruct (negb (dict_mem pid (players s))); now repeat split. }
    destruct (process_bet_ok s pid bet p Hb Hsub Est Hget Hmem) as [Hwb ->].
    assert (Hne : status s <> WAITING) by congruence.
    specialize (Hmin Hne).
    assert (Hroom : (length (player_bets s) + 1 <= length (players s))%nat).
    { assert (Hnd : NoDup (pid :: dict_keys (player_bets s))).
      { constructor; [now apply dict_mem_false | exact Hb]. }
      assert (Hle : (length (pid :: dict_keys (player_bets s))
                     <= length (dict_keys (players s)))%nat).
      { apply NoDup_incl_length; [exact Hnd|].
        intros x [<-|Hx]; [now apply dict_get_Some_In with p | now apply Hsub]. }
      unfold dict_keys in Hle. simpl in Hle. rewrite !length_map in Hle. lia. }
    assert (Hlog : bet_count_ok (with_bet pid bet s)).
    { rewrite Hwb. unfold bet_count_ok.
      cbn [status players player_bets set_player_bets].
      rewrite length_app. simpl length.
      repeat split; try (intros _; assumption). congruence. }
    destruct (py_format bet); [exact Hlog|].
    destruct (_ =? _)%nat eqn:Elen; simpl fst; [|exact Hlog].
    rewrite Hwb. unfold bet_count_ok.
    cbn [status players player_bets set_status set_player_bets].
    rewrite length_app. simpl length.
    apply Nat.eqb_eq in Elen. repeat split; intros _; assumption.
Qed.

Lemma reachable_bet_count_ok s : reachable s -> bet_count_ok s.
Proof.
  apply reachable_ind_P.
  - intros creator. unfold bet_count_ok. simpl.
    repeat split; intros H; congruence.
  - intros s' o. apply bet_count_ok_after.
Qed.

(** X3: in every game, no bet is recorded while the status is WAITING; a
    round that has started has at least [MIN_PLAYERS] players; while the
    status is PLAYING at most as many bets as players are recorded; and
    once the status is ENDED every enrolled player has a bet. *)
Theorem bets_counted_by_status :
  forall s,
    reachable s ->
    (status s = WAITING -> player_bets s = []) /\
    (status s <> WAITING -> (MIN_PLAYERS <= length (players s))%nat) /\
    (status s = PLAYING -> (length (player_bets s) <= length (players s))%nat) /\
    (status s = ENDED ->
     length (player_bets s) = length (players s) /\
     forall q, In q (dict_keys (players s)) -> In q (dict_keys (player_bets s))).
Proof.
  intros s Hreach.
  destruct (reachable_Inv s Hreach) as [Hp Hb Hsub Hw _].
  destruct (reachable_bet_count_ok s Hreach) as [Hmin [Hplay Hend]].
  split; [intros Hst; now destruct (Hw Hst)|].
  split; [exact Hmin|]. split; [exact Hplay|].
  intros Hst. specialize (Hend Hst). split; [exact Hend|].
  apply NoDup_length_incl; [exact Hb | | exact Hsub].
  unfold dict_keys. rewrite !length_map. lia.
Qed.

Lemma bets_counted_by_status_witness :
  (status demo_ended = ENDED /\ status demo_parity_one_bet = PLAYING) /\
  ((status demo_ended = WAITING -> player_bets demo_ended = []) /\
   (status demo_ended <> WAITING -> (MIN_PLAYERS <= length (players demo_ended))%nat) /\
   (status demo_ended = PLAYING ->
    (length (player_bets demo_ended) <= length (players demo_ended))%nat) /\
   (status demo_ended = ENDED ->
    length (player_bets demo_ended) = length (players demo_ended) /\
    forall q, In q (dict_keys (players demo_ended)) ->
              In q (dict_keys (player_bets demo_ended)))).
Proof.
  split; [split; reflexivity|].
  apply (bets_counted_by_status demo_ended).
  exists None, (demo_join ++ [StartGame 0 guess_parity [];
                              ProcessBet "111" (VStr even_tag);
                              ProcessBet "ai-1" (VStr odd_tag)])%list.
  reflexivity.
Defined.

(** ** Joining *)

Lemma run_join_all joins s :
  status s = WAITING ->
  NoDup (dict_keys (players s) ++ dict_keys joins)%list ->
  run (join_all joins) s = set_players (players s ++ joins)%list s.
Proof.
  revert s. induction joins as [|[pid p] joins IH]; intros s Hst Hnd; simpl.
  - rewrite app_nil_r. now destruct s.
  - assert (Hfresh : dict_mem pid (players s) = false).
    { apply dict_mem_false. intros Hin. apply NoDup_remove_2 in Hnd.
      apply Hnd. apply in_or_app. now left. }
    rewrite after_AddPlayer, add_player_eq, Hst, Hfresh. simpl negb. cbv iota.
    simpl fst. rewrite (dict_set_fresh _ _ _ Hfresh).
    rewrite IH.
    + cbn [players set_players]. rewrite <- app_assoc. simpl.
      destruct p as [n a]. reflexivity.
    + exact Hst.
    + cbn [players set_players]. rewrite dict_keys_app. simpl.
      rewrite <- app_assoc. exact Hnd.
Qed.

(** Reading back the names of a dictionary without repeated keys. *)
Lemma for_each_names (d1 d2 : dict player) s :
  NoDup (dict_keys (d1 ++ d2)%list) ->
  for_each (fun pid => p <- subscript pid (d1 ++ d2)%list ;; ret (name p))
           (dict_keys d2) s
  = (s, inr (map (fun kv => name (snd kv)) d2)).
Proof.
  revert d1. induction d2 as [|[k p] d2 IH]; intros d1 Hnd; simpl; [reflexivity|].
  assert (Hk : dict_get k (d1 ++ (k, p) :: d2)%list = Some p).
  { rewrite dict_get_app.
    assert (Hnot : ~ In k (dict_keys d1)).
    { rewrite dict_keys_app in Hnd. simpl in Hnd.
      apply NoDup_remove_2 in Hnd. intros Hin. apply Hnd.
      apply in_or_app. now left. }
    apply dict_mem_false in Hnot. unfold dict_mem in Hnot.
    destruct (dict_get k d1); [discriminate|]. simpl. now rewrite String.eqb_refl. }
  unfold bind at 1. unfold bind at 1. unfold subscript at 1. rewrite Hk.
  unfold ret at 1. cbv beta iota. unfold ret at 1. cbv beta iota.
  unfold bind at 1.
  specialize (IH (d1 ++ [(k, p)])%list).
  rewrite <- app_assoc in IH. simpl in IH. rewrite IH; [reflexivity | exact Hnd].
Qed.

(** X4: players who join a new game under pairwise different ids are
    stored in the order in which they joined, each with the name and AI
    flag given, and the game is still WAITING. *)
Theorem joins_keep_their_order :
  forall creator (joins : dict player),
    NoDup (dict_keys joins) ->
    players (run (join_all joins) (new_game creator)) = joins /\
    status (run (join_all joins) (new_game creator)) = WAITING /\
    (forall q p, In (q, p) joins ->
                 dict_get q (players (run (join_all joins) (new_game creator))) = Some p).
Proof.
  intros creator joins Hnd.
  rewrite run_join_all; [|reflexivity | exact Hnd].
  cbn [players status set_players new_game app].
  split; [reflexivity|]. split; [reflexivity|].
  intros q p Hin. clear creator.
  induction joins as [|[k v] joins IH]; simpl; [contradiction|].
  inversion Hnd as [|? ? Hk Hnd']; subst.
  destruct Hin as [Heq|Hin].
  - inversion Heq; subst. now rewrite String.eqb_refl.
  - destruct (String.eqb_spec k q) as [->|Hne].
    + exfalso. apply Hk. change q with (fst (q, p)). now apply in_map.
    + now apply IH.
Qed.

Lemma joins_keep_their_order_witness :
  NoDup (dict_keys [("111", mkPlayer "A" false); ("ai-1", mkPlayer "B" true)]) /\
  players (run (join_all [("111", mkPlayer "A" false); ("ai-1", mkPlayer "B" true)])
               (new_game None))
  = [("111", mkPlayer "A" false); ("ai-1", mkPlayer "B" true)].
Proof.
  assert (Hnd : NoDup (dict_keys [("111", mkPlayer "A" false);
                                  ("ai-1", mkPlayer "B" true)])).
  { constructor; [intros [H|[]]; discriminate H|].
    constructor; [intros []|]. constructor. }
  split; [exact Hnd|].
  exact (proj1 (joins_keep_their_order None
                  [("111", mkPlayer "A" false); ("ai-1", mkPlayer "B" true)] Hnd)).
Defined.

(** ** Starting a round *)

Lemma guess_tags_differ : String.eqb guess_parity guess_number = false.
Proof. reflexivity. Qed.

Lemma generate_number_ok rnd s lo hi :
  bet_type s = Some guess_number ->
  draw_bounds (bet_content s) = Some (lo, hi) ->
  lo <= hi /\
  _generate_winning_result rnd s
  = (set_winning_result (VInt (lo + rnd mod (hi - lo + 1))) s, inr tt).
Proof.
  intros Ht Hb. unfold _generate_winning_result, randint.
  unfold bind at 1, get at 1. cbv beta iota.
  unfold bet_type_is. rewrite Ht, String.eqb_refl.
  unfold draw_bounds in Hb. run_call.
  destruct (dict_get "min" (bet_content s)) as [a|]; [|discriminate].
  destruct (dict_get "max" (bet_content s)) as [b|]; [|discriminate].
  simpl. destruct (py_index a) as [l|]; [|discriminate].
  destruct (py_index b) as [h|]; [|discriminate].
  destruct (h <? l) eqn:E; [discriminate|].
  inversion Hb; subst. apply Z.ltb_ge in E. split; [exact E | reflexivity].
Qed.

Lemma generate_number_fail rnd s :
  bet_type s = Some guess_number ->
  draw_bounds (bet_content s) = None ->
  exists e, _generate_winning_result rnd s = (s, inl e).
Proof.
  intros Ht Hb. unfold _generate_winning_result, randint.
  unfold bind at 1, get at 1. cbv beta iota.
  unfold bet_type_is. rewrite Ht, String.eqb_refl.
  unfold draw_bounds in Hb. run_call.
  destruct (dict_get "min" (bet_content s)) as [a|]; [|eexists; reflexivity].
  destruct (dict_get "max" (bet_content s)) as [b|]; [|eexists; reflexivity].
  simpl. destruct (py_index a) as [l|]; [|eexists; reflexivity].
  destruct (py_index b) as [h|]; [|eexists; reflexivity].
  destruct (h <? l) eqn:E; [eexists; reflexivity | discriminate].
Qed.

Lemma generate_parity rnd s :
  bet_type s = Some guess_parity ->
  _generate_winning_result rnd s
  = (set_winning_result (VStr (if Z.even rnd then odd_tag else even_tag)) s, inr tt).
Proof.
  intros Ht. unfold _generate_winning_result, randint.
  unfold bind at 1, get at 1. cbv beta iota.
  unfold bet_type_is. rewrite Ht, guess_tags_differ, String.eqb_refl.
  run_call. rewrite Zeven_mod. reflexivity.
Qed.

Lemma generate_other rnd s t :
  bet_type s = Some t ->
  String.eqb t guess_number = false -> String.eqb t guess_parity = false ->
  _generate_winning_result rnd s = (s, inr tt).
Proof.
  intros Ht H1 H2. unfold _generate_winning_result.
  unfold bind at 1, get at 1. cbv beta iota.
  unfold bet_type_is. now rewrite Ht, H1, H2.
Qed.

Lemma start_game_returned_can_start s rnd bt bp s' payload :
  start_game rnd bt bp s = (s', inr payload) -> can_start bt bp s = true.
Proof.
  unfold can_start. rewrite start_game_eq, Nat.ltb_antisym.
  destruct (GameStatus_eqb (status s) WAITING); cbn [negb andb]; [|discriminate].
  destruct (MIN_PLAYERS <=? length (players s))%nat; cbn [negb andb]; [|discriminate].
  destruct (String.eqb_spec bt guess_number) as [->|Hne]; [|reflexivity].
  destruct (draw_bounds bp) as [[lo hi]|] eqn:Hb; [reflexivity|].
  destruct (generate_number_fail rnd (with_bet_type guess_number bp s))
    as [e Hg]; [reflexivity | exact Hb |].
  rewrite Hg. discriminate.
Qed.

Ltac read_names :=
  match goal with
  | |- context [for_each _ (dict_keys (players ?s2)) ?st] =>
      let names := fresh "names" in
      let Hn := fresh "Hn" in
      destruct (for_each_own_keys (players s2) (dict_keys (players s2)) st
                                  (incl_refl _)) as [names Hn];
      rewrite Hn
  end.

(** X5: [start_game] returns exactly when the status is WAITING, at least
    [MIN_PLAYERS] players are enrolled and, for the guess-the-number type
    only, the parameters hold integer ["min"] and ["max"] with
    [min <= max]; the bet type itself is never checked. *)
Theorem start_game_returns_iff :
  forall s rnd bt bet_params,
    (exists s' payload, start_game rnd bt bet_params s = (s', inr payload))
    <-> can_start bt bet_params s = true.
Proof.
  intros s rnd bt bp. unfold can_start. rewrite start_game_eq, Nat.ltb_antisym.
  destruct (GameStatus_eqb (status s) WAITING); cbn [negb andb].
  2:{ split; [intros [s' [p H]]; discriminate H | discriminate]. }
  destruct (MIN_PLAYERS <=? length (players s))%nat; cbn [negb andb].
  2:{ split; [intros [s' [p H]]; discriminate H | discriminate]. }
  destruct (String.eqb_spec bt guess_number) as [->|Hne].
  - destruct (draw_bounds bp) as [[lo hi]|] eqn:Hb.
    + destruct (generate_number_ok rnd (with_bet_type guess_number bp s) lo hi)
        as [_ Hg]; [reflexivity | exact Hb |].
      rewrite Hg. read_names.
      split; [reflexivity|]. intros _. eexists _, _. reflexivity.
    + destruct (generate_number_fail rnd (with_bet_type guess_number bp s))
        as [e Hg]; [reflexivity | exact Hb |].
      rewrite Hg. split; [intros [s' [p H]]; discriminate H | discriminate].
  - split; [reflexivity|]. intros _.
    destruct (generate_winning_result_cases rnd (with_bet_type bt bp s))
      as [[w [Hg _]] | [[Hg _] | [e [_ [Hbt _]]]]].
    + rewrite Hg. read_names.
      eexists _, _. reflexivity.
    + rewrite Hg. read_names.
      eexists _, _. reflexivity.
    + unfold bet_type_is, with_bet_type in Hbt. simpl in Hbt.
      apply String.eqb_eq in Hbt. contradiction.
Qed.

(** X6: when [start_game] returns in a game, the payload carries the bet
    type and parameters it was given and the names of all enrolled
    players in the order in which they joined; the status is PLAYING, the
    bet type and parameters are stored, and the players, the (empty) bets
    and the creator are as before. *)
Theorem start_game_payload_and_state :
  forall s rnd bt bet_params s' payload,
    reachable s ->
    start_game rnd bt bet_params s = (s', inr payload) ->
    payload = mkStart true bt bet_params (map (fun kv => name (snd kv)) (players s)) /\
    status s' = PLAYING /\
    bet_type s' = Some bt /\
    bet_content s' = bet_params /\
    players s' = players s /\
    player_bets s' = [] /\
    creator_id s' = creator_id s.
Proof.
  intros s rnd bt bp s' payload Hreach H.
  destruct (reachable_Inv s Hreach) as [Hp _ _ Hw _].
  rewrite start_game_eq in H.
  destruct (GameStatus_eqb (status s) WAITING) eqn:Est; cbn [negb] in H;
    [|discriminate H].
  apply GameStatus_eqb_eq in Est. destruct (Hw Est) as [Hb0 _].
  destruct (length (players s) <? MIN_PLAYERS)%nat; [discriminate H|].
  destruct (_generate_winning_result rnd (with_bet_type bt bp s))
    as [s2 [e|[]]] eqn:Hg; [discriminate H|].
  assert (Hs2 : exists w, s2 = set_winning_result w (with_bet_type bt bp s)).
  { destruct (generate_winning_result_cases rnd (with_bet_type bt bp s))
      as [[w [Hg' _]] | [[Hg' _] | [e [Hg' _]]]];
      rewrite Hg' in Hg; inversion Hg.
    - now exists w.
    - exists (winning_result (with_bet_type bt bp s)).
      now rewrite set_winning_result_same. }
  destruct Hs2 as [w ->].
  cbn [players set_winning_result with_bet_type set_bet_content set_bet_type] in H.
  pose proof (for_each_names [] (players s)
                (set_status PLAYING (set_winning_result w (with_bet_type bt bp s))) Hp)
    as Hn.
  simpl app in Hn. rewrite Hn in H. inversion H; subst.
  cbn. rewrite Hb0. repeat split; reflexivity.
Qed.

Lemma start_game_payload_and_state_witness :
  exists s',
    start_game 0 guess_parity [] demo_waiting
    = (s', inr (mkStart true guess_parity [] ["A"; "B"])) /\
    status s' = PLAYING.
Proof.
  eexists.
  assert (H : start_game 0 guess_parity [] demo_waiting
              = (demo_parity, inr (mkStart true guess_parity [] ["A"; "B"])))
    by (vm_compute; reflexivity).
  destruct (start_game_payload_and_state demo_waiting 0 guess_parity []
              demo_parity _ (ex_intro _ None (ex_intro _ demo_join eq_refl)) H)
    as [_ [Hst _]].
  split; [exact H | exact Hst].
Defined.

Lemma start_game_number_state s rnd bp lo hi :
  status s = WAITING ->
  (MIN_PLAYERS <= length (players s))%nat ->
  draw_bounds bp = Some (lo, hi) ->
  after (StartGame rnd guess_number bp) s
  = set_status PLAYING
      (set_winning_result (VInt (lo + rnd mod (hi - lo + 1)))
                          (with_bet_type guess_number bp s)).
Proof.
  intros Hst Hlen Hb. rewrite after_StartGame, start_game_eq, Hst.
  cbn [GameStatus_eqb negb].
  apply Nat.ltb_ge in Hlen. rewrite Hlen.
  destruct (generate_number_ok rnd (with_bet_type guess_number bp s) lo hi)
    as [_ Hg]; [reflexivity | exact Hb |].
  rewrite Hg. read_names. reflexivity.
Qed.

(** X7: a guess-the-number round started with integer bounds
    [min <= max] draws an integer between them, both included; every
    integer in the range is the draw for some random word; and when the
    bounds coincide the winning result is that one number, whatever the
    random word. *)
Theorem number_draw_within_bounds :
  forall s rnd bet_params lo hi,
    status s = WAITING ->
    (MIN_PLAYERS <= length (players s))%nat ->
    draw_bounds bet_params = Some (lo, hi) ->
    (exists z,
        winning_result (after (StartGame rnd guess_number bet_params) s) = VInt z /\
        lo <= z <= hi) /\
    (forall z, lo <= z <= hi ->
       exists rnd',
         winning_result (after (StartGame rnd' guess_number bet_params) s) = VInt z) /\
    (lo = hi ->
     winning_result (after (StartGame rnd guess_number bet_params) s) = VInt lo).
Proof.
  intros s rnd bp lo hi Hst Hlen Hb.
  assert (Hle : lo <= hi).
  { destruct (generate_number_ok rnd (with_bet_type guess_number bp s) lo hi)
      as [Hle _]; [reflexivity | exact Hb | exact Hle]. }
  split; [|split].
  - rewrite (start_game_number_state s rnd bp lo hi Hst Hlen Hb).
    eexists. split; [reflexivity|].
    pose proof (Z.mod_pos_bound rnd (hi - lo + 1)). lia.
  - intros z Hz. exists (z - lo).
    rewrite (start_game_number_state s (z - lo) bp lo hi Hst Hlen Hb).
    cbn [winning_result set_status set_winning_result].
    rewrite Z.mod_small by lia. f_equal. lia.
  - intros ->. rewrite (start_game_number_state s rnd bp hi hi Hst Hlen Hb).
    cbn [winning_result set_status set_winning_result].
    replace (hi - hi + 1) with 1 by lia. rewrite Z.mod_1_r. f_equal. lia.
Qed.

Lemma number_draw_within_bounds_witness :
  winning_result
    (after (StartGame 12345 guess_number [("min", VInt 1); ("max", VInt 1)])
           demo_waiting) = VInt 1.
Proof.
  apply (number_draw_within_bounds demo_waiting 12345
           [("min", VInt 1); ("max", VInt 1)] 1 1).
  - reflexivity.
  - vm_compute. apply le_n.
  - reflexivity.
  - reflexivity.
Defined.

Lemma start_game_parity_state s rnd bp :
  status s = WAITING ->
  (MIN_PLAYERS <= length (players s))%nat ->
  after (StartGame rnd guess_parity bp) s
  = set_status PLAYING
      (set_winning_result (VStr (if Z.even rnd then odd_tag else even_tag))
                          (with_bet_type guess_parity bp s)).
Proof.
  intros Hst Hlen. rewrite after_StartGame, start_game_eq, Hst.
  cbn [GameStatus_eqb negb].
  apply Nat.ltb_ge in Hlen. rewrite Hlen.
  rewrite (generate_parity rnd (with_bet_type guess_parity bp s) eq_refl).
  read_names. reflexivity.
Qed.

(** X8: an odd-or-even round always starts, whatever its parameters, and
    its winning result is ["单"] when the random word is even and ["双"]
    when it is odd, so both results occur. *)
Theorem parity_draw_is_one_of_two :
  forall s rnd bet_params,
    status s = WAITING ->
    (MIN_PLAYERS <= length (players s))%nat ->
    status (after (StartGame rnd guess_parity bet_params) s) = PLAYING /\
    winning_result (after (StartGame rnd guess_parity bet_params) s)
    = VStr (if Z.even rnd then odd_tag else even_tag) /\
    winning_result (after (StartGame 0 guess_parity bet_params) s) = VStr odd_tag /\
    winning_result (after (StartGame 1 guess_parity bet_params) s) = VStr even_tag.
Proof.
  intros s rnd bp Hst Hlen.
  rewrite !(start_game_parity_state s _ bp Hst Hlen). repeat split.
Qed.

Lemma parity_draw_is_one_of_two_witness :
  winning_result (after (StartGame 7 guess_parity []) demo_waiting) = VStr even_tag.
Proof.
  apply (parity_draw_is_one_of_two demo_waiting 7 []).
  - reflexivity.
  - vm_compute. apply le_n.
Defined.

(** ** Betting *)

Lemma returned_bet_can_bet s pid bet s' payload :
  process_bet pid bet s = (s', inr payload) -> can_bet pid s = true.
Proof.
  unfold can_bet. rewrite process_bet_eq.
  destruct (GameStatus_eqb (status s) PLAYING); cbn [negb andb]; [|discriminate].
  destruct (dict_mem pid (players s)); cbn [negb andb]; [|discriminate].
  destruct (dict_mem pid (player_bets s)); [discriminate | reflexivity].
Qed.




(** What one call does to the recorded bets. *)
Lemma player_bets_after o s :
  player_bets (after o s) = player_bets s \/
  exists pid bet, dict_mem pid (player_bets s) = false /\
                  player_bets (after o s) = (player_bets s ++ [(pid, bet)])%list.
Proof.
  destruct o as [pid pn ai | rnd bt bp | pid bet].
  - left. rewrite after_AddPlayer, add_player_eq.
    destruct (negb _); [reflexivity|]. destruct (dict_mem _ _); reflexivity.
  - left. rewrite after_StartGame.
    destruct (start_game_cases rnd bt bp s)
      as [[_ ->] | [[_ [_ [e [_ ->]]]] | [[_ [_ [e [_ [_ [_ ->]]]]]]
                                         | [_ [_ [s2 [names [Hg ->]]]]]]]];
      try reflexivity.
    simpl.
    destruct (generate_winning_result_cases rnd (with_bet_type bt bp s))
      as [[w [Hg' _]] | [[Hg' _] | [e [Hg' _]]]];
      rewrite Hg' in Hg; inversion Hg; reflexivity.
  - rewrite after_ProcessBet, process_bet_eq.
    destruct (negb _); [now left|].
    destruct (negb _); [now left|].
    destruct (dict_mem pid (player_bets s)) eqn:Hmem; [now left|].
    right. exists pid, bet. split; [exact Hmem|].
    assert (Hwb : player_bets (with_bet pid bet s) = (player_bets s ++ [(pid, bet)])%list).
    { unfold with_bet. cbn [player_bets set_player_bets].
      now rewrite (dict_set_fresh _ _ _ Hmem). }
    destruct (dict_get pid (players s)); [|exact Hwb].
    destruct (py_format bet); [exact Hwb|].
    destruct (_ =? _)%nat; [|exact Hwb].
    destruct (_end_game_loop _ _ _) as [s2 [e|results]] eqn:Hloop;
      apply end_game_loop_state in Hloop; subst s2; [exact Hwb|].
    destruct (dict_get pid _); exact Hwb.
Qed.

(** X10: a recorded bet is final: whatever calls follow, on any state, the
    bet a player has made stays in [player_bets] with the value first
    submitted, and earlier bets keep their place before later ones. *)
Theorem recorded_bets_are_final :
  forall ops s q b,
    dict_get q (player_bets s) = Some b ->
    dict_get q (player_bets (run ops s)) = Some b /\
    exists later, player_bets (run ops s) = (player_bets s ++ later)%list.
Proof.
  intros ops. induction ops as [|o ops IH]; intros s q b Hq; simpl.
  - split; [exact Hq|]. exists []. now rewrite app_nil_r.
  - destruct (player_bets_after o s) as [Heq | [pid [bet [_ Heq]]]].
    + destruct (IH (after o s) q b) as [H1 [later H2]]; [now rewrite Heq|].
      split; [exact H1|]. exists later. now rewrite H2, Heq.
    + destruct (IH (after o s) q b) as [H1 [later H2]].
      { rewrite Heq, dict_get_app. now rewrite Hq. }
      split; [exact H1|]. exists ((pid, bet) :: later).
      rewrite H2, Heq, <- app_assoc. reflexivity.
Qed.

Lemma recorded_bets_are_final_witness :
  dict_get "111" (player_bets demo_parity_one_bet) = Some (VStr even_tag) /\
  dict_get "111"
    (player_bets (run [ProcessBet "111" (VStr odd_tag);
                       ProcessBet "ai-1" (VStr odd_tag);
                       ProcessBet "111" VNone] demo_parity_one_bet))
  = Some (VStr even_tag).
Proof.
  split; [reflexivity|].
  apply (recorded_bets_are_final
           [ProcessBet "111" (VStr odd_tag); ProcessBet "ai-1" (VStr odd_tag);
            ProcessBet "111" VNone] demo_parity_one_bet "111" (VStr even_tag)).
  reflexivity.
Defined.

(** X11: when the last bet resolves a round, the results mapping lists
    the players in the order in which they bet, which need not be the
    order in which they joined: its keys are those of [player_bets] and a
    rearrangement of those of [players]. *)
Theorem results_follow_bet_order :
  forall s player_id bet s' payload results,
    reachable s ->
    process_bet player_id bet s = (s', inr payload) ->
    bet_results payload = Some results ->
    dict_keys results = (dict_keys (player_bets s) ++ [player_id])%list /\
    dict_keys results = dict_keys (player_bets s') /\
    Permutation (dict_keys results) (dict_keys (players s')).
Proof.
  intros s pid bet s' payload results Hreach Hcall Hres.
  destruct (reachable_Inv s Hreach) as [Hp Hb Hsub _ _].
  pose proof (returned_bet_can_bet s pid bet s' payload Hcall) as Hcan.
  unfold can_bet in Hcan. apply andb_prop in Hcan. destruct Hcan as [H Hnb].
  apply andb_prop in H. destruct H as [Hst Hmem].
  apply GameStatus_eqb_eq in Hst. apply negb_true_iff in Hnb.
  apply dict_mem_In in Hmem. destruct (dict_get_In pid (players s) Hmem) as [p Hget].
  destruct (process_bet_ok s pid bet p Hb Hsub Hst Hget Hnb) as [Hwb Heq].
  rewrite Heq in Hcall.
  destruct (py_format bet) as [e0|text0]; [discriminate Hcall|].
  destruct (length (player_bets s) + 1 =? length (players s))%nat eqn:Elen;
    inversion Hcall; subst; [|discriminate Hres].
  cbn [bet_results] in Hres. inversion Hres; subst. clear Hres Hcall.
  apply Nat.eqb_eq in Elen.
  rewrite Hwb. cbn [players player_bets set_status set_player_bets].
  rewrite dict_keys_map_entry_of, dict_keys_app. simpl.
  split; [reflexivity|]. split; [reflexivity|].
  assert (Hnd : NoDup (dict_keys (player_bets s) ++ [pid])%list).
  { pose proof (dict_wf_snoc pid bet _ Hb Hnb) as H.
    unfold dict_wf in H. now rewrite dict_keys_app in H. }
  assert (Hincl : incl (dict_keys (player_bets s) ++ [pid])%list (dict_keys (players s))).
  { intros x Hx. apply in_app_or in Hx. destruct Hx as [Hx|[<-|[]]];
      [now apply Hsub | exact Hmem]. }
  apply NoDup_Permutation; [exact Hnd | exact Hp |].
  intros x. split; [apply Hincl|].
  apply NoDup_length_incl; [exact Hnd | | exact Hincl].
  rewrite length_app. unfold dict_keys. rewrite !length_map. simpl. lia.
Qed.

Lemma results_follow_bet_order_witness :
  exists s' payload results,
    process_bet "111" (VStr odd_tag)
                (after (ProcessBet "ai-1" (VStr even_tag)) demo_parity)
    = (s', inr payload) /\
    bet_results payload = Some results /\
    dict_keys results = ["ai-1"; "111"] /\
    dict_keys (players s') = ["111"; "ai-1"].
Proof.
  eexists _, _, _.
  assert (Hreach : reachable (after (ProcessBet "ai-1" (VStr even_tag)) demo_parity)).
  { exists None, (demo_join ++ [StartGame 0 guess_parity [];
                                ProcessBet "ai-1" (VStr even_tag)])%list.
    reflexivity. }
  assert (Hcall : process_bet "111" (VStr odd_tag)
                    (after (ProcessBet "ai-1" (VStr even_tag)) demo_parity)
                  = (run [ProcessBet "ai-1" (VStr even_tag);
                          ProcessBet "111" (VStr odd_tag)] demo_parity,
                     inr (mkBet true "bet" "111" "A" (VStr odd_tag) true
                            (Some [("ai-1", result_entry "B" true false);
                                   ("111", result_entry "A" false true)]))))
    by (vm_compute; reflexivity).
  destruct (results_follow_bet_order _ "111" (VStr odd_tag) _ _ _ Hreach Hcall eq_refl)
    as [Hk _].
  split; [exact Hcall|]. split; [reflexivity|]. split; [exact Hk|]. reflexivity.
Defined.

(** * Further properties of the renderer *)

Lemma str_app_nil_r (s : string) : s ++ EmptyString = s.
Proof. induction s as [|a s IH]; simpl; [reflexivity | now rewrite IH]. Qed.

Lemma str_app_assoc (a b c : string) : (a ++ b) ++ c = a ++ b ++ c.
Proof. induction a as [|x a IH]; simpl; [reflexivity | now rewrite IH]. Qed.

Lemma remove_char_app c a b :
  remove_char c (a ++ b) = remove_char c a ++ remove_char c b.
Proof.
  induction a as [|x a IH]; simpl; [reflexivity|].
  destruct (Ascii.eqb x c); simpl; now rewrite IH.
Qed.

Lemma has_char_remove c s : has_char c (remove_char c s) = false.
Proof.
  induction s as [|x s IH]; simpl; [reflexivity|].
  destruct (Ascii.eqb x c) eqn:E; simpl; [exact IH | now rewrite E].
Qed.

Lemma has_char_remove_other c d s :
  has_char c s = false -> has_char c (remove_char d s) = false.
Proof.
  induction s as [|x s IH]; simpl; [reflexivity|].
  intros H. apply orb_false_iff in H. destruct H as [H1 H2].
  destruct (Ascii.eqb x d); simpl; [now apply IH|].
  rewrite H1. now apply IH.
Qed.

Lemma strip_parens_clean s :
  has_char "(" (strip_parens s) = false /\ has_char ")" (strip_parens s) = false.
Proof.
  unfold strip_parens. split.
  - apply has_char_remove_other, has_char_remove.
  - apply has_char_remove.
Qed.

Lemma strip_parens_wrapped s : strip_parens ("(" ++ s ++ ")") = strip_parens s.
Proof.
  unfold strip_parens. simpl. rewrite !remove_char_app. simpl.
  now rewrite str_app_nil_r.
Qed.

Lemma loggable_cases v :
  (loggable v = true /\ py_format v = inr (py_str v)) \/
  (loggable v = false /\ py_format v = inl value_error).
Proof.
  unfold loggable. destruct (py_format v) as [e|text] eqn:E.
  - right. apply py_format_raises in E. now subst.
  - left. apply py_format_returns in E. now subst.
Qed.

(** X12: for a player id of ASCII characters and a count of at most 4300
    digits, [build_join_message] returns the prefix, an at-mention when
    the player is human and the id is numeric and short enough for
    [int], the name, and the suffix with the action and the count; it
    never reads the text of a mention segment.  Every parenthesis is
    removed from the name segment, those of the player's own name
    included, and for an AI player the robot sign comes twice: as the
    prefix and again before the name.  For a count of more than 4300
    digits it raises [ValueError]. *)
Theorem build_join_message_segments :
  forall At_text player_id player_name player_count ai,
    ascii_only player_id = true ->
    (too_many_digits player_count = false ->
     build_join_message At_text player_id player_name player_count ai
     = inr ([Plain (if ai then "🤖 " else "✅ ")]
            ++ (if negb ai && isdigit player_id
                then match int_of_str player_id with
                     | Some qq => [At qq]
                     | None => []
                     end
                else [])
            ++ [Plain ((if ai then "🤖 " else EmptyString)
                         ++ strip_parens player_name)]
            ++ [Plain (" 已" ++ (if ai then "添加 AI" else "加入") ++ "！当前 "
                         ++ str_of_Z player_count ++ " 人。")])%list) /\
    (too_many_digits player_count = true ->
     build_join_message At_text player_id player_name player_count ai
     = inl value_error) /\
    has_char "(" (strip_parens player_name) = false /\
    has_char ")" (strip_parens player_name) = false.
Proof.
  intros At_text pid pname n ai _.
  split; [|split; [|apply strip_parens_clean]].
  - intros Hn. unfold build_join_message, py_format. rewrite Hn.
    cbn [and_then]. unfold _get_player_mention.
    destruct ai; cbn [truthy negb andb py_str].
    + cbn [list_last component_text removelast app and_then].
      unfold strip_parens. simpl remove_char. reflexivity.
    + destruct (isdigit pid); cbn [andb].
      * destruct (int_of_str pid) as [qq|];
          cbn [list_last component_text removelast app and_then].
        -- now rewrite strip_parens_wrapped.
        -- reflexivity.
      * reflexivity.
  - intros Hn. unfold build_join_message, py_format. rewrite Hn. reflexivity.
Qed.

Lemma build_join_message_segments_witness :
  build_join_message (fun _ => inl (Exn (OtherException "AttributeError") "text"))
                     "111" "A(x)" 3 false
  = inr [Plain "✅ "; At 111; Plain "Ax"; Plain " 已加入！当前 3 人。"].
Proof.
  apply (proj1 (build_join_message_segments
                  (fun _ => inl (Exn (OtherException "AttributeError") "text"))
                  "111" "A(x)" 3 false eq_refl)).
  vm_compute. reflexivity.
Defined.

Lemma start_game_payload_args s rnd bt bp s' payload :
  start_game rnd bt bp s = (s', inr payload) ->
  start_bet_type payload = bt /\ start_bet_params payload = bp.
Proof.
  rewrite start_game_eq.
  destruct (negb _); [discriminate|].
  destruct (_ <? _)%nat; [discriminate|].
  destruct (_generate_winning_result _ _) as [s2 [e|[]]]; [discriminate|].
  destruct (for_each _ _ _) as [s3 [e|names]]; [discriminate|].
  intros H. inversion H. now split.
Qed.

Lemma and_then_format {B} v (k : string -> exn + B) :
  and_then (py_format v) k = if loggable v then k (py_str v) else inl value_error.
Proof.
  destruct (loggable_cases v) as [[Hl ->]|[Hl ->]]; now rewrite Hl.
Qed.

Lemma build_start_game_message_number bp :
  build_start_game_message guess_number bp =
  match dict_get "min" bp with
  | None => inl (key_error "min")
  | Some lo =>
      if loggable lo then
        match dict_get "max" bp with
        | None => inl (key_error "max")
        | Some hi =>
            if loggable hi then
              inr [Plain ("🎉 竞猜游戏开始！" ++ newline ++ "竞猜类型: " ++ guess_number);
                   Plain ("请猜 " ++ py_str lo ++ " 到 " ++ py_str hi ++ " 之间的数字")]
            else inl value_error
        end
      else inl value_error
  end.
Proof.
  unfold build_start_game_message, item. rewrite String.eqb_refl.
  destruct (dict_get "min" bp) as [lo|]; cbn [and_then]; [|reflexivity].
  rewrite and_then_format. destruct (loggable lo); [|reflexivity].
  destruct (dict_get "max" bp) as [hi|]; cbn [and_then]; [|reflexivity].
  rewrite and_then_format. destruct (loggable hi); reflexivity.
Qed.

(** X13: [build_start_game_message] raises only for the guess-the-number
    type, and there exactly when ["min"] or ["max"] is missing
    ([KeyError]) or is an integer of more than 4300 digits
    ([ValueError]); otherwise it returns the header, followed by one
    instruction segment for the two known types.  After a [start_game]
    call that returned, its bet type and parameters are rendered without
    an error unless one of the two bounds of a guess-the-number round has
    more than 4300 digits, in which case [ValueError] is raised. *)
Theorem build_start_game_message_outcomes :
  forall bt bet_params,
    ((exists e, build_start_game_message bt bet_params = inl e) <->
     (bt = guess_number /\ bounds_printable bet_params = false)) /\
    (forall e,
        build_start_game_message bt bet_params = inl e ->
        exn_class_of e = KeyError \/ exn_class_of e = ValueError) /\
    (forall comps,
        build_start_game_message bt bet_params = inr comps ->
        hd_error comps
        = Some (Plain ("🎉 竞猜游戏开始！" ++ newline ++ "竞猜类型: " ++ bt)) /\
        length comps = (if recognized (Some bt) then 2 else 1)%nat) /\
    (forall s rnd s' payload e,
        start_game rnd bt bet_params s = (s', inr payload) ->
        build_start_game_message (start_bet_type payload) (start_bet_params payload)
        = inl e ->
        e = value_error /\ bt = guess_number /\
        exists lo hi,
          dict_get "min" bet_params = Some lo /\
          dict_get "max" bet_params = Some hi /\
          (loggable lo = false \/ loggable hi = false)).
Proof.
  intros bt bp.
  destruct (String.eqb_spec bt guess_number) as [->|Hne].
  - rewrite build_start_game_message_number. unfold bounds_printable.
    split; [|split; [|split]].
    + destruct (dict_get "min" bp) as [lo|];
        [destruct (loggable lo); [destruct (dict_get "max" bp) as [hi|];
                                  [destruct (loggable hi)|]|
                                  destruct (dict_get "max" bp)]|];
        (split; [intros [e H]; try discriminate H; now split
                | intros [_ H]; try discriminate H; eexists; reflexivity]).
    + intros e.
      destruct (dict_get "min" bp) as [lo|];
        [destruct (loggable lo); [destruct (dict_get "max" bp) as [hi|];
                                  [destruct (loggable hi)|]|]|];
        intros H; inversion H; subst; simpl; tauto.
    + intros comps.
      destruct (dict_get "min" bp) as [lo|]; [|discriminate].
      destruct (loggable lo); [|discriminate].
      destruct (dict_get "max" bp) as [hi|]; [|discriminate].
      destruct (loggable hi); [|discriminate].
      intros H. inversion H. split; reflexivity.
    + intros s rnd s' payload e Hstart.
      destruct (start_game_payload_args _ _ _ _ _ _ Hstart) as [-> ->].
      rewrite build_start_game_message_number.
      pose proof (start_game_returned_can_start s rnd guess_number bp s' payload Hstart)
        as Hcan.
      unfold can_start in Hcan. rewrite String.eqb_refl in Hcan.
      apply andb_prop in Hcan. destruct Hcan as [_ Hcan].
      unfold draw_bounds in Hcan.
      destruct (dict_get "min" bp) as [lo|]; [|discriminate Hcan].
      destruct (dict_get "max" bp) as [hi|]; [|discriminate Hcan].
      destruct (loggable lo) eqn:Hl.
      * destruct (loggable hi) eqn:Hh; [discriminate|].
        intros H. inversion H. split; [reflexivity|]. split; [reflexivity|].
        exists lo, hi. split; [reflexivity|]. split; [reflexivity | now right].
      * intros H. inversion H. split; [reflexivity|]. split; [reflexivity|].
        exists lo, hi. split; [reflexivity|]. split; [reflexivity | now left].
  - assert (Hret : build_start_game_message bt bp
                   = inr (Plain ("🎉 竞猜游戏开始！" ++ newline ++ "竞猜类型: " ++ bt)
                            :: (if String.eqb bt guess_parity
                                then [Plain "请猜单或双"] else []))).
    { unfold build_start_game_message.
      destruct (String.eqb_spec bt guess_number); [contradiction|].
      destruct (String.eqb bt guess_parity); reflexivity. }
    split; [|split; [|split]].
    + rewrite Hret.
      split; [intros [e H]; discriminate H | intros [H _]; contradiction].
    + rewrite Hret. intros e H. discriminate H.
    + rewrite Hret. intros comps Hc. inversion Hc. unfold recognized.
      destruct (String.eqb_spec bt guess_number); [contradiction|]. cbn [orb].
      destruct (String.eqb bt guess_parity); split; reflexivity.
    + intros s rnd s' payload e Hstart He.
      destruct (start_game_payload_args _ _ _ _ _ _ Hstart) as [Ht Hp].
      rewrite Ht, Hp, Hret in He. discriminate He.
Qed.

Lemma dict_get_own {V} (d : dict V) k v :
  NoDup (dict_keys d) -> In (k, v) d -> dict_get k d = Some v.
Proof.
  induction d as [|[k' v'] d IH]; simpl; [contradiction|].
  intros Hnd Hin. inversion Hnd as [|? ? Hk Hnd']; subst.
  destruct Hin as [Heq|Hin].
  - inversion Heq; subst. now rewrite String.eqb_refl.
  - destruct (String.eqb_spec k' k) as [->|Hne].
    + exfalso. apply Hk. change k with (fst (k, v)). now apply in_map.
    + now apply IH.
Qed.

(** X14: when a bet resolves a round whose players all have ids of ASCII
    characters, [build_bet_result_messages] turns the results into one
    message per player, in the order of the bets: the pointing hand, the
    player's mention, and " 猜对！".  Neither the bets nor the winning
    result have any influence on the messages. *)
Theorem resolved_round_announcements :
  forall s player_id bet s' payload results,
    reachable s ->
    (forall q, In q (dict_keys (players s)) -> ascii_only q = true) ->
    process_bet player_id bet s = (s', inr payload) ->
    bet_results payload = Some results ->
    build_bet_result_messages results = map (announced s') (player_bets s') /\
    length (build_bet_result_messages results) = length (players s').
Proof.
  intros s pid bet s' payload results Hreach _ Hcall Hres.
  destruct (reachable_Inv s Hreach) as [Hp Hb Hsub _ _].
  pose proof (returned_bet_can_bet s pid bet s' payload Hcall) as Hcan.
  unfold can_bet in Hcan. apply andb_prop in Hcan. destruct Hcan as [H Hnb].
  apply andb_prop in H. destruct H as [Hst Hmem].
  apply GameStatus_eqb_eq in Hst. apply negb_true_iff in Hnb.
  apply dict_mem_In in Hmem. destruct (dict_get_In pid (players s) Hmem) as [p Hget].
  destruct (process_bet_ok s pid bet p Hb Hsub Hst Hget Hnb) as [Hwb Heq].
  rewrite Heq in Hcall.
  destruct (py_format bet) as [e0|text0]; [discriminate Hcall|].
  destruct (length (player_bets s) + 1 =? length (players s))%nat eqn:Elen;
    inversion Hcall; subst; [|discriminate Hres].
  cbn [bet_results] in Hres. inversion Hres; subst. clear Hres Hcall.
  apply Nat.eqb_eq in Elen.
  rewrite Hwb. cbn [players player_bets set_status set_player_bets].
  set (s1 := set_player_bets (player_bets s ++ [(pid, bet)])%list s).
  set (bets1 := (player_bets s ++ [(pid, bet)])%list).
  assert (Hnd : NoDup (dict_keys (map (entry_of s1) bets1))).
  { rewrite dict_keys_map_entry_of. apply (dict_wf_snoc pid bet _ Hb Hnb). }
  assert (Hsub1 : forall k, In k (dict_keys bets1) -> In k (dict_keys (players s))).
  { intros k Hk. unfold bets1 in Hk. rewrite dict_keys_app in Hk.
    apply in_app_or in Hk. destruct Hk as [Hk|[<-|[]]]; [now apply Hsub | exact Hmem]. }
  split.
  - unfold build_bet_result_messages. rewrite map_map.
    apply map_ext_in. intros [k b] Hin.
    unfold build_bet_result_message.
    assert (Hd : dict_get_default k [] (map (entry_of s1) bets1)
                 = snd (entry_of s1 (k, b))).
    { unfold dict_get_default.
      erewrite dict_get_own; [reflexivity | exact Hnd |].
      change (k, snd (entry_of s1 (k, b))) with (entry_of s1 (k, b)).
      now apply in_map. }
    cbn [entry_of fst snd] in *. rewrite Hd.
    unfold announced. cbn [fst snd players set_status]. reflexivity.
  - unfold build_bet_result_messages. rewrite !length_map.
    unfold bets1. rewrite length_app. simpl. exact Elen.
Qed.

Lemma resolved_round_announcements_witness :
  exists s' payload results,
    process_bet "ai-1" (VStr even_tag) demo_parity_one_bet = (s', inr payload) /\
    bet_results payload = Some results /\
    build_bet_result_messages results = map (announced s') (player_bets s').
Proof.
  eexists _, _, _.
  assert (Hreach : reachable demo_parity_one_bet).
  { exists None, (demo_join ++ [StartGame 0 guess_parity [];
                                ProcessBet "111" (VStr even_tag)])%list.
    reflexivity. }
  assert (Hcall : process_bet "ai-1" (VStr even_tag) demo_parity_one_bet
                  = (after (ProcessBet "ai-1" (VStr even_tag)) demo_parity_one_bet,
                     inr (mkBet true "bet" "ai-1" "B" (VStr even_tag) true
                            (Some [("111", result_entry "A" false false);
                                   ("ai-1", result_entry "B" true false)]))))
    by (vm_compute; reflexivity).
  assert (Hascii : forall q, In q (dict_keys (players demo_parity_one_bet)) ->
                             ascii_only q = true).
  { intros q Hq. vm_compute in Hq. destruct Hq as [<-|[<-|[]]]; reflexivity. }
  destruct (resolved_round_announcements _ "ai-1" (VStr even_tag) _ _ _
              Hreach Hascii Hcall eq_refl) as [Hm _].
  split; [exact Hcall|]. split; [reflexivity | exact Hm].
Defined.

(** ** Lists evaluated with exceptions *)

Lemma map_exn_raises_iff {A B} (f : A -> exn + B) (xs : list A) :
  (exists e, map_exn f xs = inl e) <-> (exists x e, In x xs /\ f x = inl e).
Proof.
  induction xs as [|x xs IH]; simpl.
  - split; [intros [e H]; discriminate H | intros [x [e [[] _]]]].
  - destruct (f x) as [e|y] eqn:Hx.
    + split; [intros _; exists x, e; split; [now left | exact Hx]|].
      intros _. now exists e.
    + destruct (map_exn f xs) as [e|ys].
      * split; [|intros _; now exists e].
        intros _. destruct (proj1 IH (ex_intro _ e eq_refl)) as [x' [e' [Hin H']]].
        exists x', e'. split; [now right | exact H'].
      * split; [intros [e H]; discriminate H|].
        intros [x' [e' [[<-|Hin] H']]]; [congruence|].
        destruct (proj2 IH) as [e'' H'']; [now exists x', e' | discriminate H''].
Qed.

Lemma map_exn_returns {A B} (f : A -> exn + B) (g : A -> B) (xs : list A) :
  (forall x, In x xs -> f x = inr (g x)) -> map_exn f xs = inr (map g xs).
Proof.
  induction xs as [|x xs IH]; intros H; simpl; [reflexivity|].
  rewrite (H x) by now left. rewrite IH; [reflexivity|].
  intros y Hy. apply H. now right.
Qed.

Lemma map_exn_first_error {A B} (f : A -> exn + B) (e0 : exn) (xs : list A) e :
  (forall x e', f x = inl e' -> e' = e0) -> map_exn f xs = inl e -> e = e0.
Proof.
  intros Hf. induction xs as [|x xs IH]; simpl; [discriminate|].
  destruct (f x) as [e'|y] eqn:Hx.
  - intros H. inversion H; subst. now apply (Hf x).
  - destruct (map_exn f xs); [|discriminate].
    intros H. inversion H; subst. now apply IH.
Qed.

Lemma map_exn_error_from {A B} (f : A -> exn + B) (xs : list A) e :
  map_exn f xs = inl e -> exists x, In x xs /\ f x = inl e.
Proof.
  induction xs as [|x xs IH]; simpl; [discriminate|].
  destruct (f x) as [e'|y] eqn:Hx.
  - intros H. inversion H; subst. exists x. split; [now left | exact Hx].
  - destruct (map_exn f xs); [|discriminate].
    intros H. inversion H; subst. destruct (IH eq_refl) as [x' [Hin H']].
    exists x'. split; [now right | exact H'].
Qed.

Lemma read_name_cases (k : string -> exn + string) (pdata : dict value) :
  and_then (item "name" pdata) (fun n => and_then (py_format n) k)
  = match dict_get "name" pdata with
    | None => inl (key_error "name")
    | Some n => if loggable n then k (py_str n) else inl value_error
    end.
Proof.
  unfold item. destruct (dict_get "name" pdata) as [n|]; cbn [and_then];
    [apply and_then_format | reflexivity].
Qed.

Lemma format_player_item_raises players pid e :
  format_player_item players pid = inl e <->
  (exists pdata,
      dict_get pid players = Some pdata /\ dict_truthy pdata = true /\
      name_unreadable pdata = true /\
      e = match dict_get "name" pdata with
          | None => key_error "name"
          | Some _ => value_error
          end).
Proof.
  unfold format_player_item, name_unreadable.
  destruct (dict_get pid players) as [pdata|].
  - destruct (dict_truthy pdata) eqn:Ht.
    + rewrite read_name_cases.
      destruct (dict_get "name" pdata) as [n|] eqn:Hn.
      * destruct (loggable n) eqn:Hl.
        -- split; [discriminate|]. intros [pd [H [_ [H' _]]]].
           inversion H; subst. rewrite Hn, Hl in H'. discriminate H'.
        -- split.
           ++ intros H. inversion H. exists pdata. rewrite Hn, Hl. now repeat split.
           ++ intros [pd [H [_ [_ He]]]]. inversion H; subst.
              rewrite Hn. reflexivity.
      * split.
        -- intros H. inversion H. exists pdata. rewrite Hn. now repeat split.
        -- intros [pd [H [_ [_ He]]]]. inversion H; subst. rewrite Hn. reflexivity.
    + split; [discriminate|]. intros [pd [H [H' _]]].
      inversion H; subst. congruence.
  - split; [discriminate|]. intros [pd [H _]]. discriminate H.
Qed.

(** X15: [format_player_list] answers "无玩家" for an empty order.
    Otherwise it raises exactly when some listed id has an entry that is
    not empty and whose ["name"] is missing ([KeyError]) or is an integer
    of more than 4300 digits ([ValueError]); an id without an entry, or
    with an empty entry, is shown as "[未知:id]" and is no error. *)
Theorem format_player_list_outcomes :
  forall players turn_order,
    format_player_list players [] = inr "无玩家" /\
    ((exists e, format_player_list players turn_order = inl e) <->
     (exists pid pdata,
         In pid turn_order /\ dict_get pid players = Some pdata /\
         dict_truthy pdata = true /\ name_unreadable pdata = true)) /\
    (forall e, format_player_list players turn_order = inl e ->
               e = key_error "name" \/ e = value_error) /\
    (forall pid,
        (dict_get pid players = None \/ dict_get pid players = Some []) ->
        format_player_list players [pid] = inr ("[未知:" ++ pid ++ "]")).
Proof.
  intros players order. split; [reflexivity|]. split; [|split].
  - destruct order as [|o order].
    { simpl. split; [intros [e H]; discriminate H | intros [pid [pd [[] _]]]]. }
    unfold format_player_list. split.
    + intros [e H].
      destruct (map_exn (format_player_item players) (o :: order)) as [e'|l] eqn:Hm;
        [|discriminate H].
      destruct (map_exn_error_from _ _ _ Hm) as [x [Hin Hx]].
      apply format_player_item_raises in Hx. destruct Hx as [pd [H1 [H2 [H3 _]]]].
      now exists x, pd.
    + intros [pid [pd [Hin [H1 [H2 H3]]]]].
      destruct (proj2 (map_exn_raises_iff (format_player_item players) (o :: order)))
        as [e He].
      { exists pid. eexists. split; [exact Hin|].
        apply format_player_item_raises. exists pd. now repeat split. }
      rewrite He. now exists e.
  - intros e. unfold format_player_list. destruct order as [|o order]; [discriminate|].
    destruct (map_exn (format_player_item players) (o :: order)) as [e'|l] eqn:Hm;
      [|discriminate].
    intros H. inversion H; subst.
    destruct (map_exn_error_from _ _ _ Hm) as [x [_ Hx]].
    apply format_player_item_raises in Hx. destruct Hx as [pd [_ [_ [_ ->]]]].
    destruct (dict_get "name" pd); [now right | now left].
  - intros pid [H|H]; unfold format_player_list, format_player_item; simpl;
      rewrite H; simpl; rewrite ?str_app_nil_r; reflexivity.
Qed.

Lemma dict_get_players_dict k (d : dict player) :
  dict_get k (players_dict d) =
  match dict_get k d with Some p => Some (player_dict p) | None => None end.
Proof.
  induction d as [|[k' p] d IH]; simpl; [reflexivity|].
  destruct (String.eqb k' k); [reflexivity | exact IH].
Qed.

Lemma format_player_item_engine (d : dict player) k p :
  dict_get k d = Some p ->
  format_player_item (players_dict d) k = inr (listed (k, p)).
Proof.
  intros H. unfold format_player_item. rewrite dict_get_players_dict, H.
  unfold listed. cbn. destruct (is_ai p); cbn; now rewrite ?str_app_nil_r.
Qed.

Lemma map_exn_items (view : dict (dict value)) (d : dict player) :
  (forall kv, In kv d -> format_player_item view (fst kv) = inr (listed kv)) ->
  map_exn (format_player_item view) (map fst d) = inr (map listed d).
Proof.
  induction d as [|kv d IH]; intros Hall; simpl; [reflexivity|].
  rewrite (Hall kv) by now left.
  rewrite IH; [reflexivity|]. intros kv' Hin. apply Hall. now right.
Qed.

(** X16: given the players of a game and their ids in join order,
    [format_player_list] never raises: it returns the names in join
    order, separated by ", ", each AI player's name followed by " [AI]";
    no player is shown as eliminated or as unknown. *)
Theorem format_player_list_of_game :
  forall s,
    reachable s ->
    players s <> [] ->
    format_player_list (players_dict (players s)) (dict_keys (players s))
    = inr (String.concat ", " (map listed (players s))).
Proof.
  intros s Hreach Hne.
  destruct (reachable_Inv s Hreach) as [Hp _ _ _ _].
  unfold format_player_list.
  destruct (dict_keys (players s)) as [|k0 ks] eqn:Hk.
  { destruct (players s); [now elim Hne | discriminate Hk]. }
  rewrite <- Hk. clear Hk k0 ks.
  assert (H : map_exn (format_player_item (players_dict (players s)))
                      (dict_keys (players s))
              = inr (map listed (players s))).
  { unfold dict_keys.
    assert (Hall : forall kv, In kv (players s) ->
              format_player_item (players_dict (players s)) (fst kv)
              = inr (listed kv)).
    { intros [k p] Hin. apply format_player_item_engine.
      now apply dict_get_own. }
    now apply map_exn_items. }
  now rewrite H.
Qed.

Lemma format_player_list_of_game_witness :
  format_player_list (players_dict (players demo_waiting))
                     (dict_keys (players demo_waiting))
  = inr "A, B [AI]".
Proof.
  apply (format_player_list_of_game demo_waiting).
  - exists None, demo_join. reflexivity.
  - discriminate.
Defined.

(** ** The status message *)

Lemma requester_segments s r text :
  (let status_components := [Plain text] in
   let requesting_pdata :=
     match r with
     | Some pid =>
         if truthy (VStr pid) then
           match dict_get pid (game_players (state_dict s)) with
           | Some pdata => Some (pid, pdata)
           | None => None
           end
         else None
     | None => None
     end in
   match requesting_pdata with
   | Some (pid, pdata) =>
       if dict_truthy pdata then
         let player_name := dict_get_default "name" (VStr "未知玩家") pdata in
         let ai := dict_get_default "is_ai" (VBool false) pdata in
         and_then (mention_of pid player_name ai) (fun mention_comps =>
         inr (status_components ++ [Plain ("你已参与游戏" ++ newline)]
                ++ mention_comps)%list)
       else inr status_components
   | None => @inr exn _ status_components
   end) = inr (Plain text :: own_mention s r).
Proof.
  unfold own_mention. destruct r as [pid|]; [|reflexivity].
  cbn [truthy]. destruct (String.eqb pid EmptyString); cbn [negb]; [reflexivity|].
  cbn [game_players state_dict g_players].
  rewrite dict_get_players_dict.
  destruct (dict_get pid (players s)) as [p|]; reflexivity.
Qed.

Lemma status_type_lines_state s :
  status_type_lines (state_dict s) =
  match bet_type s with
  | None => inr ("竞猜类型: " ++ "None" ++ newline)
  | Some t =>
      if String.eqb t guess_number then
        if range_printable (bet_content s) then
          inr (("竞猜类型: " ++ t ++ newline) ++ "数字范围: "
                 ++ py_str (dict_get_default "min" (VStr "未知") (bet_content s))
                 ++ " 到 "
                 ++ py_str (dict_get_default "max" (VStr "未知") (bet_content s))
                 ++ newline)
        else inl value_error
      else if String.eqb t guess_parity then
        inr (("竞猜类型: " ++ t ++ newline) ++ "猜单或双" ++ newline)
      else inr ("竞猜类型: " ++ t ++ newline)
  end.
Proof.
  unfold status_type_lines, range_printable.
  cbn [state_dict g_bet_type game_bet_content g_bet_content].
  destruct (bet_type s) as [t|]; [|reflexivity].
  cbn [py_format py_str and_then py_eq].
  destruct (String.eqb t guess_number).
  - rewrite and_then_format.
    destruct (loggable (dict_get_default "min" (VStr "未知") (bet_content s)));
      [|reflexivity].
    rewrite and_then_format.
    destruct (loggable (dict_get_default "max" (VStr "未知") (bet_content s)));
      reflexivity.
  - destruct (String.eqb t guess_parity); reflexivity.
Qed.

(** X17: given the state of the engine and a requesting player whose id,
    if any, is of ASCII characters, [build_game_status_message] always
    reports "游戏已结束", also for a game that is still WAITING or
    PLAYING: the engine stores a member of [GameStatus] under ["status"],
    which is never equal to the text "waiting".  The bet type line of a
    game that was never started reads "None".  The segments for the player
    who asked follow exactly when that player is enrolled.  The call
    raises, with [ValueError], exactly when the bet type is the
    guess-the-number tag and a stored bound is an integer of more than
    4300 digits. *)
Theorem status_message_of_engine_state :
  forall s requesting_player_id,
    (forall pid, requesting_player_id = Some pid -> ascii_only pid = true) ->
    ((bet_type s <> Some guess_number \/ range_printable (bet_content s) = true) ->
     exists type_text,
       build_game_status_message (state_dict s) requesting_player_id
       = inr (Plain ("🎲 竞猜游戏状态" ++ newline ++ "状态: 游戏已结束" ++ newline
                       ++ "竞猜类型: " ++ type_text)
                :: own_mention s requesting_player_id) /\
       (bet_type s = None -> type_text = "None" ++ newline)) /\
    (bet_type s = Some guess_number ->
     range_printable (bet_content s) = false ->
     build_game_status_message (state_dict s) requesting_player_id
     = inl value_error).
Proof.
  intros s r _.
  unfold build_game_status_message.
  change (status_is_waiting_text (state_dict s)) with false. cbv iota.
  rewrite status_type_lines_state. split.
  - intros Hok. destruct (bet_type s) as [t|] eqn:Ht.
    + destruct (String.eqb_spec t guess_number) as [->|Hne].
      * destruct Hok as [Hok|Hok]; [now elim Hok|]. rewrite Hok.
        cbn [and_then]. cbv zeta. rewrite (requester_segments s r).
        eexists. split; [|discriminate].
        rewrite !str_app_assoc. reflexivity.
      * destruct (String.eqb t guess_parity); cbn [and_then]; cbv zeta;
          rewrite (requester_segments s r);
          (eexists; split; [|discriminate]);
          rewrite !str_app_assoc; reflexivity.
    + cbn [and_then]. cbv zeta. rewrite (requester_segments s r).
      exists ("None" ++ newline). split; [|reflexivity].
      rewrite !str_app_assoc. reflexivity.
  - intros Ht Hr. rewrite Ht, String.eqb_refl, Hr. reflexivity.
Qed.

Lemma status_message_of_engine_state_witness :
  exists type_text,
    build_game_status_message (state_dict demo_waiting) (Some "111")
    = inr (Plain ("🎲 竞猜游戏状态" ++ newline ++ "状态: 游戏已结束" ++ newline
                    ++ "竞猜类型: " ++ type_text)
             :: own_mention demo_waiting (Some "111")) /\
    (bet_type demo_waiting = None -> type_text = "None" ++ newline).
Proof.
  apply (proj1 (status_message_of_engine_state demo_waiting (Some "111")
                  (fun pid H => match H in (_ = r)
                                  return match r with
                                         | Some q => ascii_only q = true
                                         | None => True
                                         end
                                with eq_refl => eq_refl end))).
  left. discriminate.
Defined.

Lemma map_exn_length {A B} (f : A -> exn + B) (xs : list A) ys :
  map_exn f xs = inr ys -> length ys = length xs.
Proof.
  revert ys. induction xs as [|x xs IH]; intros ys; simpl.
  - intros H. inversion H. reflexivity.
  - destruct (f x); [discriminate|].
    destruct (map_exn f xs) as [e|l]; [discriminate|].
    intros H. inversion H. simpl. f_equal. now apply IH.
Qed.

Lemma status_player_line_raises pdata e :
  status_player_line pdata = inl e <->
  (name_unreadable pdata = true /\
   e = match dict_get "name" pdata with
       | None => key_error "name"
       | Some _ => value_error
       end).
Proof.
  unfold status_player_line, name_unreadable. rewrite read_name_cases.
  destruct (dict_get "name" pdata) as [n|].
  - destruct (loggable n); cbn [negb].
    + split; [discriminate | intros [H _]; discriminate H].
    + split; [intros H; inversion H; now split | intros [_ ->]; reflexivity].
  - split; [intros H; inversion H; now split | intros [_ ->]; reflexivity].
Qed.

(** X18: for a [game] whose ["status"] is the text "waiting",
    [build_game_status_message] does not look at the player who asked.
    It raises exactly when some enrolled player's entry has no ["name"]
    (an empty entry included) or has for name an integer of more than
    4300 digits; the error is then a [KeyError] for "name" or the
    [ValueError] of the conversion to text.  Otherwise it returns one text
    segment that reports "等待下注" and the number of enrolled players. *)
Theorem status_message_while_waiting :
  forall game requesting_player_id,
    status_is_waiting_text game = true ->
    build_game_status_message game requesting_player_id
    = build_game_status_message game None /\
    ((exists e, build_game_status_message game requesting_player_id = inl e) <->
     (exists pdata, In pdata (map snd (game_players game)) /\
                    name_unreadable pdata = true)) /\
    (forall e,
        build_game_status_message game requesting_player_id = inl e ->
        e = key_error "name" \/ e = value_error) /\
    (forall comps,
        build_game_status_message game requesting_player_id = inr comps ->
        exists text,
          comps = [Plain ("🎲 竞猜游戏状态" ++ newline ++ "状态: 等待下注" ++ newline
                            ++ "玩家 ("
                            ++ str_of_Z (Z.of_nat (length (game_players game)))
                            ++ "人):" ++ text)]).
Proof.
  intros game r Hw. unfold build_game_status_message. rewrite Hw.
  split; [reflexivity|]. split; [|split].
  - destruct (map_exn status_player_line (map snd (game_players game)))
      as [e|l] eqn:Hm; cbn [and_then].
    + split; [|intros _; now exists e]. intros _.
      destruct (map_exn_error_from _ _ _ Hm) as [pd [Hin Hx]].
      exists pd. split; [exact Hin|].
      now apply status_player_line_raises in Hx.
    + split; [intros [e H]; discriminate H|].
      intros [pd [Hin Hn]]. exfalso.
      destruct (proj2 (map_exn_raises_iff status_player_line
                         (map snd (game_players game)))) as [e He].
      { eexists pd, _. split; [exact Hin|].
        apply status_player_line_raises. split; [exact Hn | reflexivity]. }
      rewrite He in Hm. discriminate Hm.
  - intros e.
    destruct (map_exn status_player_line (map snd (game_players game)))
      as [e'|l] eqn:Hm; cbn [and_then]; [|discriminate].
    intros H. inversion H; subst. clear H.
    destruct (map_exn_error_from _ _ _ Hm) as [pd [_ Hx]].
    apply status_player_line_raises in Hx. destruct Hx as [_ ->].
    destruct (dict_get "name" pd); [now right | now left].
  - intros comps.
    destruct (map_exn status_player_line (map snd (game_players game)))
      as [e|l] eqn:Hm; cbn [and_then]; [discriminate|].
    intros H. inversion H; subst. clear H.
    apply map_exn_length in Hm. rewrite length_map in Hm. rewrite Hm.
    eexists. rewrite !str_app_assoc. reflexivity.
Qed.

Lemma status_message_while_waiting_witness :
  build_game_status_message
    (mkGameDict (Some (StatusOther (VStr "waiting")))
                (Some (players_dict (players demo_waiting))) None None)
    (Some "111")
  = build_game_status_message
      (mkGameDict (Some (StatusOther (VStr "waiting")))
                  (Some (players_dict (players demo_waiting))) None None)
      None.
Proof.
  apply (status_message_while_waiting
           (mkGameDict (Some (StatusOther (VStr "waiting")))
                       (Some (players_dict (players demo_waiting))) None None)
           (Some "111")).
  reflexivity.
Defined.

(** ** The end-of-game message *)

Lemma concat_empty_cons a l :
  String.concat EmptyString (a :: l) = a ++ String.concat EmptyString l.
Proof. destruct l; simpl; [now rewrite str_app_nil_r | reflexivity]. Qed.

Lemma concat_sep_cons sep x xs :
  String.concat sep (x :: xs)
  = x ++ String.concat EmptyString (map (fun y => sep ++ y) xs).
Proof.
  revert x. induction xs as [|y ys IH]; intros x.
  - simpl. now rewrite str_app_nil_r.
  - change (String.concat sep (x :: y :: ys))
      with (x ++ sep ++ String.concat sep (y :: ys)).
    rewrite IH. cbn [map]. rewrite concat_empty_cons.
    now rewrite !str_app_assoc.
Qed.

Lemma game_end_loop_plain At_text winners announcement :
  (forall w, In w winners -> isdigit (fst w) = false) ->
  game_end_loop At_text false winners announcement
  = inr (announcement
           ++ String.concat EmptyString (map (fun w => ", " ++ snd w) winners)).
Proof.
  revert announcement.
  induction winners as [|[wid wname] rest IH]; intros ann Hnd.
  - simpl. now rewrite str_app_nil_r.
  - cbn [game_end_loop]. unfold _get_player_mention. cbn [truthy negb andb].
    pose proof (Hnd (wid, wname) (or_introl eq_refl)) as Hd.
    cbn [fst] in Hd. rewrite Hd.
    cbn [map_exn component_text py_str].
    change (String.concat EmptyString [wname]) with wname.
    rewrite IH by (intros w Hw; apply Hnd; now right).
    cbn [map snd]. rewrite concat_empty_cons.
    now rewrite !str_app_assoc.
Qed.

(** X19: for winners whose ids are of ASCII characters and none of whom
    has a numeric id, [build_game_end_message] returns one text segment:
    the announcement followed by the winners' names separated by ", ".
    Ids and names are paired in order up to the shorter of the two lists,
    the rest being dropped; no winner is marked as an AI; and the text of
    a mention segment is never read. *)
Theorem build_game_end_message_of_names :
  forall At_text winner_ids winner_names,
    (forall wid, In wid winner_ids ->
                 ascii_only wid = true /\ isdigit wid = false) ->
    build_game_end_message At_text winner_ids winner_names
    = inr [Plain ("🎉 游戏结束！胜者是: "
                    ++ String.concat ", " (map snd (combine winner_ids winner_names)))] /\
    length (combine winner_ids winner_names)
    = Nat.min (length winner_ids) (length winner_names).
Proof.
  intros At_text ids names Hascii. split; [|apply length_combine].
  assert (Hnd : forall wid, In wid ids -> isdigit wid = false)
    by (intros wid Hin; apply (Hascii wid Hin)).
  clear Hascii. unfold build_game_end_message.
  assert (Hw : forall w, In w (combine ids names) -> isdigit (fst w) = false).
  { intros [wid wname] Hin. apply Hnd. simpl. now apply in_combine_l in Hin. }
  clear Hnd.
  destruct (combine ids names) as [|[wid wname] rest]; [reflexivity|].
  cbn [game_end_loop]. unfold _get_player_mention. cbn [truthy negb andb].
  pose proof (Hw (wid, wname) (or_introl eq_refl)) as Hd.
  cbn [fst] in Hd. rewrite Hd.
  cbn [map_exn component_text py_str].
  change (String.concat EmptyString [wname]) with wname.
  rewrite game_end_loop_plain by (intros w Hin; apply Hw; now right).
  cbn [map snd]. rewrite concat_sep_cons, map_map.
  now rewrite !str_app_assoc.
Qed.

Lemma build_game_end_message_of_names_witness :
  build_game_end_message (fun _ => inl (Exn (OtherException "AttributeError") "text"))
                         ["ai-1"; "ai-2"; "ai-3"] ["B"; "C"]
  = inr [Plain "🎉 游戏结束！胜者是: B, C"].
Proof.
  apply (build_game_end_message_of_names
           (fun _ => inl (Exn (OtherException "AttributeError") "text"))
           ["ai-1"; "ai-2"; "ai-3"] ["B"; "C"]).
  intros wid [<-|[<-|[<-|[]]]]; split; reflexivity.
Defined.

(** ** Errors of the engine, as shown to the user *)


(** * Whole rounds *)

Lemma started_step o s :
  status s <> WAITING ->
  status (after o s) <> WAITING /\ round_setup (after o s) = round_setup s.
Proof.
  intros Hst. destruct o as [pid pn ai | rnd bt bp | pid bet].
  - rewrite after_AddPlayer, add_player_eq.
    destruct (GameStatus_eqb (status s) WAITING) eqn:E.
    + apply GameStatus_eqb_eq in E. contradiction.
    + now split.
  - rewrite after_StartGame, start_game_not_waiting by exact Hst. now split.
  - rewrite after_ProcessBet, process_bet_eq.
    destruct (negb _); [now split|].
    destruct (negb _); [now split|].
    destruct (dict_mem pid (player_bets s)); [now split|].
    destruct (dict_get pid (players s)); [|now split].
    destruct (py_format bet); [now split|].
    destruct (_ =? _)%nat; [|now split].
    destruct (_end_game_loop _ _ _) as [s2 [e|results]] eqn:Hloop;
      apply end_game_loop_state in Hloop; subst s2; [now split|].
    destruct (dict_get pid _); split; try reflexivity; cbn; discriminate.
Qed.

Lemma round_setup_run ops :
  forall s, status s <> WAITING -> round_setup (run ops s) = round_setup s.
Proof.
  induction ops as [|o ops IH]; intros s Hst; simpl; [reflexivity|].
  destruct (started_step o s Hst) as [Hst' Heq].
  rewrite IH by exact Hst'. exact Heq.
Qed.

(** X21: once a round has started, enrolment is closed and the round
    keeps what it was started with: [add_player] raises
    [GameNotWaitingError], and no sequence of calls changes the players,
    the bet type, the bet parameters, the winning result or the creator.
    Only [player_bets] and the status can still change. *)
Theorem round_setup_is_kept :
  forall s,
    status s <> WAITING ->
    (forall player_id player_name ai,
        exists e,
          add_player player_id player_name ai s = (s, inl e) /\
          exn_class_of e = GameNotWaitingError) /\
    (forall ops,
        creator_id (run ops s) = creator_id s /\
        players (run ops s) = players s /\
        bet_type (run ops s) = bet_type s /\
        bet_content (run ops s) = bet_content s /\
        winning_result (run ops s) = winning_result s).
Proof.
  intros s Hst. split.
  - intros pid pn ai. rewrite add_player_eq.
    destruct (GameStatus_eqb (status s) WAITING) eqn:E.
    + apply GameStatus_eqb_eq in E. contradiction.
    + eexists. split; reflexivity.
  - intros ops.
    pose proof (round_setup_run ops s Hst) as H.
    unfold round_setup in H. inversion H. repeat split; assumption.
Qed.

Lemma round_setup_is_kept_witness :
  (status demo_parity <> WAITING) /\
  players (run [AddPlayer "222" "C" false; StartGame 1 guess_number [];
                ProcessBet "111" VNone] demo_parity)
  = players demo_parity.
Proof.
  assert (Hst : status demo_parity <> WAITING) by discriminate.
  split; [exact Hst|].
  apply (proj2 (round_setup_is_kept demo_parity Hst)
           [AddPlayer "222" "C" false; StartGame 1 guess_number [];
            ProcessBet "111" VNone]).
Defined.

(** Bets placed one after the other by the players who have not bet yet. *)
Lemma run_all_bet choice (rem : dict player) :
  forall s (done : dict player),
    status s = PLAYING ->
    players s = (done ++ rem)%list ->
    dict_keys (player_bets s) = dict_keys done ->
    NoDup (dict_keys (done ++ rem)%list) ->
    rem <> [] ->
    (forall q, In q (dict_keys rem) -> loggable (choice q) = true) ->
    status (run (all_bet choice rem) s) = ENDED /\
    players (run (all_bet choice rem) s) = players s /\
    player_bets (run (all_bet choice rem) s)
    = (player_bets s ++ map (fun kv => (fst kv, choice (fst kv))) rem)%list.
Proof.
  induction rem as [|[pid p] rem IH]; intros s done Hst Hpl Hbk Hnd Hne Hlog;
    [now elim Hne|].
  cbn [all_bet map run fold_left fst]. fold (all_bet choice rem).
  change (fold_left (fun s o => after o s) (all_bet choice rem)
                    (after (ProcessBet pid (choice pid)) s))
    with (run (all_bet choice rem) (after (ProcessBet pid (choice pid)) s)).
  assert (Hwf : dict_wf (player_bets s)).
  { unfold dict_wf. rewrite Hbk. rewrite dict_keys_app in Hnd.
    now apply NoDup_app_remove_r in Hnd. }
  assert (Hsub : incl (dict_keys (player_bets s)) (dict_keys (players s))).
  { rewrite Hbk, Hpl, dict_keys_app. now apply incl_appl. }
  assert (Hget : dict_get pid (players s) = Some p).
  { rewrite Hpl. apply dict_get_own; [exact Hnd|].
    apply in_or_app. right. now left. }
  assert (Hfresh : dict_mem pid (player_bets s) = false).
  { apply dict_mem_false. rewrite Hbk. rewrite dict_keys_app in Hnd. simpl in Hnd.
    apply NoDup_remove_2 in Hnd. intros Hin. apply Hnd. apply in_or_app. now left. }
  destruct (process_bet_ok s pid (choice pid) p Hwf Hsub Hst Hget Hfresh) as [Hwb Heq].
  destruct (loggable_cases (choice pid)) as [[_ Hfmt]|[Hl _]];
    [|rewrite (Hlog pid (or_introl eq_refl)) in Hl; discriminate Hl].
  rewrite Hfmt in Heq.
  assert (Hlen : length (player_bets s) = length done).
  { apply (f_equal (@length string)) in Hbk. unfold dict_keys in Hbk.
    now rewrite !length_map in Hbk. }
  rewrite after_ProcessBet, Heq, Hlen, Hpl, length_app. simpl length.
  destruct rem as [|kv rem']; cbn [length].
  - assert (E : (length done + 1 =? length done + 1)%nat = true)
      by apply Nat.eqb_refl.
    rewrite E. simpl fst. rewrite Hwb. cbn. rewrite Hpl. repeat split.
  - assert (E : (length done + 1 =? length done + S (S (length rem')))%nat = false)
      by (apply Nat.eqb_neq; lia).
    rewrite E. simpl fst. rewrite Hwb.
    destruct (IH (set_player_bets (player_bets s ++ [(pid, choice pid)])%list s)
                 (done ++ [(pid, p)])%list) as [H1 [H2 H3]].
    + exact Hst.
    + cbn [players set_player_bets]. rewrite Hpl, <- app_assoc. reflexivity.
    + cbn [player_bets set_player_bets]. rewrite !dict_keys_app, Hbk. reflexivity.
    + rewrite <- app_assoc. exact Hnd.
    + discriminate.
    + intros q Hin. apply Hlog. now right.
    + split; [exact H1|].
      split; [rewrite H2; cbn [players set_player_bets]; exact Hpl|].
      rewrite H3. cbn [player_bets set_player_bets map fst].
      rewrite <- app_assoc. reflexivity.
Qed.

(** X22: a whole round runs to its end.  When two or more players with
    pairwise different ids join a new game, an odd-or-even round is
    started and each player places one bet, in join order and of any
    value that the log line of [process_bet] can print (anything but an
    integer of more than 4300 digits), the game is ENDED, the players are
    those who joined, the winning result is the tag that was drawn, and
    [player_bets] holds exactly each player's bet. *)
Theorem whole_round_completes :
  forall creator (joins : dict player) rnd bet_params (choice : string -> value),
    NoDup (dict_keys joins) ->
    (MIN_PLAYERS <= length joins)%nat ->
    (forall q, In q (dict_keys joins) -> loggable (choice q) = true) ->
    let s := run (join_all joins ++ [StartGame rnd guess_parity bet_params]
                    ++ all_bet choice joins)%list (new_game creator) in
    status s = ENDED /\
    players s = joins /\
    winning_result s = VStr (if Z.even rnd then odd_tag else even_tag) /\
    player_bets s = map (fun kv => (fst kv, choice (fst kv))) joins.
Proof.
  intros creator joins rnd bp choice Hnd Hlen Hlog s. subst s.
  unfold run. rewrite !fold_left_app. fold (run (join_all joins) (new_game creator)).
  rewrite (run_join_all joins (new_game creator) eq_refl Hnd).
  cbn [players new_game app].
  set (s0 := set_players joins (new_game creator)).
  cbn [fold_left].
  assert (Hst : status s0 = WAITING) by reflexivity.
  assert (Hlen0 : (MIN_PLAYERS <= length (players s0))%nat) by exact Hlen.
  rewrite (start_game_parity_state s0 rnd bp Hst Hlen0).
  set (s1 := set_status PLAYING
               (set_winning_result (VStr (if Z.even rnd then odd_tag else even_tag))
                                   (with_bet_type guess_parity bp s0))).
  fold (run (all_bet choice joins) s1).
  destruct (run_all_bet choice joins s1 []) as [H1 [H2 H3]].
  - reflexivity.
  - reflexivity.
  - reflexivity.
  - exact Hnd.
  - intros ->. unfold MIN_PLAYERS in Hlen. simpl in Hlen. lia.
  - exact Hlog.
  - split; [exact H1|]. split; [now rewrite H2|]. split.
    + assert (Hne : status s1 <> WAITING) by discriminate.
      pose proof (round_setup_run (all_bet choice joins) s1 Hne) as Hk.
      unfold round_setup in Hk. inversion Hk. reflexivity.
    + now rewrite H3.
Qed.

Lemma whole_round_completes_witness :
  status (run (join_all [("111", mkPlayer "A" false); ("ai-1", mkPlayer "B" true)]
                 ++ [StartGame 1 guess_parity []]
                 ++ all_bet (fun _ => VStr even_tag)
                      [("111", mkPlayer "A" false); ("ai-1", mkPlayer "B" true)])%list
              (new_game None))
  = ENDED.
Proof.
  apply (whole_round_completes None
           [("111", mkPlayer "A" false); ("ai-1", mkPlayer "B" true)]
           1 [] (fun _ => VStr even_tag)).
  - constructor; [intros [H|[]]; discriminate H|].
    constructor; [intros []|]. constructor.
  - apply le_n.
  - intros q _. reflexivity.
Defined.
